(** * Matching & ranking engine of AIDI1003-CAPSTONE: a shallow embedding

    The development follows the repository file by file:
    - [Training]          the Python training / evaluation script
                          (labelling rule and the [/ats/evaluate] endpoint);
    - [JS]                the fragment of JavaScript values and built-ins
                          the services rely on;
    - [Http]              the requests the front end sends to the Python
                          backend, the console and the effect monad;
    - [MockAi]            [services/mockAiService.js] and the ranking
                          component that consumes it;
    - [ResumeApi]         [services/resumeApiService.js];
    - [ResumeGeneration]  [services/resume/resumeGenerationService.js];
    - [KeywordService]    [extractKeywords] of [services/resumeGenerationService.js];
    - [ResumeClient]      [services/resume/resumeApiService.js];
    - [ResumeHook]        [hooks/useResumeGenerator].

    Strings are Rocq byte strings; [toLowerCase] is the ASCII case mapping.
    JavaScript numbers are IEEE binary64 values ([PrimFloat.float]). *)

From Stdlib Require Import String Ascii List ZArith Bool Lia PeanoNat DecimalString.
From Stdlib Require Import PrimFloat.
Import ListNotations.

Set Warnings "-inexact-float,-register-all".
Local Open Scope string_scope.
Local Open Scope list_scope.

(* ================================================================== *)
(** ** The training script and the evaluation endpoint                  *)
(* ================================================================== *)

Module Training.





Section Evaluate.
(** The tokenizer, the fine-tuned model and [argmax] over its logits:
    the class (the learnt [match_label]) predicted for a text. *)
Variable predicted_class_of : string -> Z.

End Evaluate.

End Training.

(* ================================================================== *)
(** ** JavaScript values                                                *)
(* ================================================================== *)

Module JS.

(** Values that travel between the backend and the services: parsed JSON
    plus [undefined]. An object is its list of own properties; a key
    occurs at most once in a well-formed object and lookup takes the
    first binding. *)
Inductive value : Type :=
| VUndefined
| VNull
| VBool (b : bool)
| VNum (n : float)
| VStr (s : string)
| VArr (items : list value)
| VObj (props : list (string * value)).

(** Errors that can be thrown. The message of a [TypeError] depends on
    the engine and is left out. *)
Inductive error : Type :=
| AxiosError (message : string)
| TypeError
| Error (message : string).

Inductive outcome (A : Type) : Type :=
| Return (a : A)
| Throw (e : error).
Arguments Return {A} a.
Arguments Throw {A} e.

Definition obind {A B} (c : outcome A) (k : A -> outcome B) : outcome B :=
  match c with
  | Return a => k a
  | Throw e => Throw e
  end.

(** [Array.prototype.map] with a callback that may throw: elements are
    visited left to right and the first exception escapes. *)
Fixpoint omap {A B} (f : A -> outcome B) (l : list A) : outcome (list B) :=
  match l with
  | [] => Return []
  | x :: l' => obind (f x) (fun y => obind (omap f l') (fun ys => Return (y :: ys)))
  end.

(** [Array.prototype.filter] with a predicate that may throw. *)
Fixpoint ofilter {A} (f : A -> outcome bool) (l : list A) : outcome (list A) :=
  match l with
  | [] => Return []
  | x :: l' =>
      obind (f x) (fun b =>
      obind (ofilter f l') (fun ys => Return (if b then x :: ys else ys)))
  end.

(** Built-ins whose algorithm is not part of the repository. *)
Record builtins : Type := {
  Number_toString : float -> string;   (* Number::toString *)
  JSON_stringify : value -> string     (* JSON.stringify on objects and arrays *)
}.

Definition is_nan (n : float) : bool := negb (PrimFloat.eqb n n).

(** ToBoolean. *)
Definition truthy (v : value) : bool :=
  match v with
  | VUndefined | VNull => false
  | VBool b => b
  | VNum n => negb (PrimFloat.eqb n 0%float || is_nan n)
  | VStr s => negb (String.eqb s "")
  | VArr _ | VObj _ => true
  end.

(** [a || b]. *)
Definition or_else (a b : value) : value := if truthy a then a else b.

Definition typeof (v : value) : string :=
  match v with
  | VUndefined => "undefined"
  | VNull | VArr _ | VObj _ => "object"
  | VBool _ => "boolean"
  | VNum _ => "number"
  | VStr _ => "string"
  end.

Definition isArray (v : value) : bool :=
  match v with VArr _ => true | _ => false end.

Fixpoint lookup (k : string) (props : list (string * value)) : option value :=
  match props with
  | [] => None
  | (k', v) :: rest => if String.eqb k k' then Some v else lookup k rest
  end.

(** [o.k] for a value [o] that is neither [null] nor [undefined] and a
    key that no built-in prototype defines (all the keys read by the
    services are such): the own property, or [undefined]. *)
Definition get (o : value) (k : string) : value :=
  match o with
  | VObj props => match lookup k props with Some v => v | None => VUndefined end
  | _ => VUndefined
  end.

(** [o.k], throwing [TypeError] when [o] is [null] or [undefined]. *)
Definition get_prop (o : value) (k : string) : outcome value :=
  match o with
  | VUndefined | VNull => Throw TypeError
  | _ => Return (get o k)
  end.

(** The property key of an array index. *)
Definition index_key (i : nat) : string := NilZero.string_of_uint (Nat.to_uint i).

(** [o[i]] for an index literal. *)
Definition get_index (o : value) (i : nat) : outcome value :=
  match o with
  | VUndefined | VNull => Throw TypeError
  | VArr items => Return (nth i items VUndefined)
  | VStr s =>
      Return (match String.get i s with
              | Some c => VStr (String c EmptyString)
              | None => VUndefined
              end)
  | VObj props =>
      Return (match lookup (index_key i) props with
              | Some v => v
              | None => VUndefined
              end)
  | _ => Return VUndefined
  end.

(** Assignment of an own property: an existing key keeps its position. *)
Fixpoint set_prop (k : string) (v : value) (props : list (string * value))
  : list (string * value) :=
  match props with
  | [] => [(k, v)]
  | (k', v') :: rest =>
      if String.eqb k k' then (k', v) :: rest else (k', v') :: set_prop k v rest
  end.

(** The own enumerable properties copied by an object spread. *)
Definition own_props (v : value) : list (string * value) :=
  match v with
  | VObj props => props
  | VArr items => combine (map index_key (seq 0 (length items))) items
  | VStr s =>
      combine (map index_key (seq 0 (String.length s)))
              (map (fun c => VStr (String c EmptyString)) (list_ascii_of_string s))
  | _ => []
  end.

(** [{ ...init, ...src }]: the own properties of [src] are assigned in
    order onto the properties already written. *)
Definition spread (init src : list (string * value)) : list (string * value) :=
  fold_left (fun acc kv => set_prop (fst kv) (snd kv) acc) src init.

(** [Array.prototype.slice(a, b)] for literal bounds [0 <= a <= b]. *)
Definition slice {A} (a b : nat) (l : list A) : list A :=
  firstn (b - a) (skipn a l).

Definition lower_ascii (c : ascii) : ascii :=
  let n := nat_of_ascii c in
  if (Nat.leb 65 n && Nat.leb n 90)%bool then ascii_of_nat (n + 32) else c.

(** [String.prototype.toLowerCase] on ASCII text: the letters A to Z are
    mapped to a to z and every other byte is kept, which is what the
    method does to a string of code units below 128. Its mapping of the
    other characters is not modelled. *)
Fixpoint toLowerCase (s : string) : string :=
  match s with
  | EmptyString => EmptyString
  | String c s' => String (lower_ascii c) (toLowerCase s')
  end.

(** [String.prototype.includes]. *)
Fixpoint includes (s sub : string) : bool :=
  (String.prefix sub s ||
   match s with
   | EmptyString => false
   | String _ s' => includes s' sub
   end)%bool.

Section ToString.
Variable B : builtins.

(** [String(v)]. Inside an array [null] and [undefined] print as the
    empty string. *)
Fixpoint ToString (v : value) : string :=
  match v with
  | VUndefined => "undefined"
  | VNull => "null"
  | VBool true => "true"
  | VBool false => "false"
  | VNum n => Number_toString B n
  | VStr s => s
  | VArr items =>
      String.concat ","
        (map (fun x => match x with
                       | VUndefined | VNull => ""
                       | _ => ToString x
                       end) items)
  | VObj _ => "[object Object]"
  end.
End ToString.

End JS.

(* ================================================================== *)
(** ** Requests, console and the effect monad                           *)
(* ================================================================== *)

Module Http.
Import JS.

(** The four calls made through axios, relative to [API_URL]. *)
Inductive request : Type :=
| GetModelStatus                                           (* GET  /model-status *)
| PostExtractSkills (jobDescription : string)              (* POST /extract-skills *)
| PostMatchResume (resume : string) (jobSkills : value)    (* POST /match-resume *)
| PostGenerateResume (resume jobDescription : string) (extractedSkills : value).
                                                           (* POST /generate-resume *)

(** What awaiting an axios promise gives: a rejection, or [response.data]. *)
Definition response : Type := (error + value)%type.

(** The backend as seen from the browser: its answer to a request may
    depend on how many requests were sent before it. *)
Definition backend : Type := nat -> request -> response.

(** The observable effects of the services: requests put on the network
    and lines written with [console.error], both oldest first. *)
Record world : Type := {
  sent : list request;
  console : list (string * error)
}.

Definition M (A : Type) : Type := world -> outcome A * world.

Definition ret {A} (a : A) : M A := fun w => (Return a, w).

Definition throw {A} (e : error) : M A := fun w => (Throw e, w).

Definition bind {A B} (c : M A) (k : A -> M B) : M B :=
  fun w =>
    match c w with
    | (Return a, w') => k a w'
    | (Throw e, w') => (Throw e, w')
    end.

(** A pure computation that may throw. *)
Definition lift {A} (c : outcome A) : M A := fun w => (c, w).

(** [try { c } catch (err) { h err }]. *)
Definition try_catch {A} (c : M A) (h : error -> M A) : M A :=
  fun w =>
    match c w with
    | (Return a, w') => (Return a, w')
    | (Throw e, w') => h e w'
    end.

Definition console_error (label : string) (err : error) : M unit :=
  fun w => (Return tt, {| sent := sent w; console := console w ++ [(label, err)] |}).

(** [await axios.get(..)] / [await axios.post(..)], continued with
    [response.data]. *)
Definition axios (server : backend) (r : request) : M value :=
  fun w =>
    (match server (length (sent w)) r with
     | inl e => Throw e
     | inr data => Return data
     end,
     {| sent := sent w ++ [r]; console := console w |}).

Definition empty_world : world := {| sent := []; console := [] |}.

Declare Scope js_scope.
Delimit Scope js_scope with js.
Notation "x <- c ;; k" := (bind c (fun x => k))
  (at level 61, c at next level, right associativity) : js_scope.
Notation "c ;; k" := (bind c (fun _ => k))
  (at level 61, right associativity) : js_scope.

End Http.

(* ================================================================== *)
(** ** services/mockAiService.js and the ranking component              *)
(* ================================================================== *)

Module MockAi.
Import JS Http.

(** [mockResponses.ranking]. *)
Definition mockResponses_ranking : value :=
  VArr
    [ VObj [ ("candidateName", VStr "John Doe");
             ("score", VNum 85%float);
             ("strengths", VArr [ VStr "Technical expertise";
                                  VStr "Leadership experience";
                                  VStr "Communication skills" ]) ];
      VObj [ ("candidateName", VStr "Jane Smith");
             ("score", VNum 92%float);
             ("strengths", VArr [ VStr "Relevant industry experience";
                                  VStr "Project management";
                                  VStr "Innovation" ]) ] ].

(** [rankCandidates]: after the simulated delay the mock answers with the
    canned ranking and the current time; [now] is what
    [new Date().toISOString()] reads. *)
Definition rankCandidates (now : string) (jobDescription : string)
    (candidates : list value) : value :=
  VObj [ ("rankings", mockResponses_ranking); ("timestamp", VStr now) ].

(** The values a [for ... of] loop visits: arrays and strings are
    iterable, a plain object is not. *)
Definition iterate (v : value) : outcome (list value) :=
  match v with
  | VArr items => Return items
  | VStr s => Return (map (fun c => VStr (String c EmptyString)) (list_ascii_of_string s))
  | _ => Throw TypeError
  end.

(** State of the [CandidateRanking] component. *)
Record ranking_state : Type := {
  rankings : list value;
  loading : bool;
  error_message : option string
}.

Section Component.
(** [predictCandidateSuccess] of [services/aiServices], which is not part
    of the sources at hand. *)
Variable predictCandidateSuccess : value -> string -> value -> outcome value.
Variable now : string.

(** The loop body: [{ ...candidate, prediction }]. *)
Definition with_prediction (jobDescription : string) (historicalData candidate : value)
  : outcome value :=
  obind (predictCandidateSuccess candidate jobDescription historicalData)
    (fun prediction =>
       Return (VObj (set_prop "prediction" prediction (own_props candidate)))).

(** [analyzeCandidates] of the effect hook, as a transformer of the
    component state: [setLoading(true); setError(null); try .. catch ..
    finally setLoading(false)]. *)
Definition analyzeCandidates (jobDescription : string) (candidates : list value)
    (historicalData : value) (st : ranking_state) : ranking_state :=
  let rankingResults := rankCandidates now jobDescription candidates in
  match obind (iterate rankingResults)
              (omap (with_prediction jobDescription historicalData)) with
  | Return rankedCandidates =>
      {| rankings := rankedCandidates; loading := false; error_message := None |}
  | Throw _ =>
      {| rankings := rankings st; loading := false;
         error_message := Some "Failed to rank candidates. Please try again." |}
  end.
End Component.

End MockAi.

(* ================================================================== *)
(** ** services/resumeApiService.js                                     *)
(* ================================================================== *)

Module ResumeApi.
Import JS Http.
Local Open Scope js_scope.

Section Service.
Variable B : builtins.
Variable server : backend.

(** [checkBackendStatus]. *)
Definition checkBackendStatus : M bool :=
  try_catch
    (_ <- axios server GetModelStatus ;; ret true)
    (fun err => console_error "Backend connection error:" err ;; ret false).

(** The callback of [skills.map] in [extractSkills]. [typeof null] is
    ['object'], so reading [skill.skill] throws on [null]; an array has
    neither a [skill] nor a [name] property. *)
Definition normalizeSkill (skill : value) : outcome value :=
  match skill with
  | VStr s => Return (VObj [("name", VStr s)])
  | VNull => Throw TypeError
  | VObj props =>
      if truthy (get skill "skill")
      then Return (VObj (spread [("name", get skill "skill")] props))
      else if truthy (get skill "name")
      then Return skill
      else Return (VObj [("name", VStr (JSON_stringify B skill))])
  | VArr _ => Return (VObj [("name", VStr (JSON_stringify B skill))])
  | VUndefined | VBool _ | VNum _ => Return (VObj [("name", VStr (ToString B skill))])
  end.

(** [extractSkills]. *)
Definition extractSkills (jobDescription : string) : M value :=
  try_catch
    (skills <- axios server (PostExtractSkills jobDescription) ;;
     match skills with
     | VArr items =>
         out <- lift (omap normalizeSkill items) ;;
         ret (VArr out)
     | _ => ret (VArr [])
     end)
    (fun error => console_error "Error extracting skills:" error ;; throw error).

(** [calculateMatchScore]. *)
Definition calculateMatchScore (resume : string) (jobSkills : value) : M value :=
  try_catch
    (data <- axios server (PostMatchResume resume jobSkills) ;;
     lift (get_prop data "matchScore"))
    (fun error => console_error "Error calculating match score:" error ;; throw error).

(** [generatePersonalizedResume]. *)
Definition generatePersonalizedResume (resume jobDescription : string)
    (extractedSkills : value) : M value :=
  try_catch
    (axios server (PostGenerateResume resume jobDescription extractedSkills))
    (fun error =>
       console_error "Error generating personalized resume:" error ;; throw error).

End Service.

End ResumeApi.

(* ================================================================== *)
(** ** services/resume/resumeGenerationService.js                       *)
(* ================================================================== *)

Module ResumeGeneration.
Import JS Http.
Local Open Scope js_scope.

(** The candidate profile edited in the form: every field is a string
    that may be missing. *)
Module PersonalInfo.
Record t : Type := {
  name : option string;
  email : option string;
  phone : option string;
  location : option string
}.
End PersonalInfo.

Module Experience.
Record t : Type := {
  title : option string;
  company : option string;
  duration : option string;
  description : option string
}.
End Experience.

Module Education.
Record t : Type := {
  degree : option string;
  school : option string;
  year : option string
}.
End Education.

Record Profile : Type := {
  personalInfo : option PersonalInfo.t;
  experience : option (list Experience.t);
  education : option (list Education.t);
  skills : option (list string)
}.

Record Preferences : Type := {
  template : option string;
  tone : option string;
  format : option string
}.

(** [x || d] for a string that may be missing: the empty string is falsy. *)
Definition or_default (x : option string) (d : string) : string :=
  match x with
  | Some s => if String.eqb s "" then d else s
  | None => d
  end.

(** [x || '']. *)
Definition or_empty (x : option string) : string := or_default x "".

Definition nl : string := String (ascii_of_nat 10) EmptyString.
Definition dquote : string := String (ascii_of_nat 34) EmptyString.

(** [a && a.length > 0]. *)
Definition has_items {A} (a : option (list A)) : bool :=
  match a with
  | Some (_ :: _) => true
  | _ => false
  end.

Definition items_of {A} (a : option (list A)) : list A :=
  match a with
  | Some l => l
  | None => []
  end.

(** [convertProfileToText]; [profile] is [None] for [null]/[undefined]. *)
Definition convertProfileToText (profile : option Profile) : string :=
  (match profile with
  | None => ""
  | Some p =>
      match personalInfo p with
      | None => ""
      | Some info =>
          let text := or_empty (PersonalInfo.name info) ++ nl in
          let text := text ++ or_empty (PersonalInfo.email info) ++ " | "
                           ++ or_empty (PersonalInfo.phone info) ++ " | "
                           ++ or_empty (PersonalInfo.location info) ++ nl ++ nl in
          let text := text ++ "EXPERIENCE" ++ nl in
          let text :=
            if has_items (experience p)
            then fold_left
                   (fun text exp =>
                      let text := text ++ or_empty (Experience.title exp) ++ " at "
                                       ++ or_empty (Experience.company exp) ++ " ("
                                       ++ or_empty (Experience.duration exp) ++ ")" ++ nl in
                      text ++ or_empty (Experience.description exp) ++ nl ++ nl)
                   (items_of (experience p)) text
            else text in
          let text := text ++ "EDUCATION" ++ nl in
          let text :=
            if has_items (education p)
            then fold_left
                   (fun text edu =>
                      text ++ or_empty (Education.degree edu) ++ " from "
                           ++ or_empty (Education.school edu) ++ " ("
                           ++ or_empty (Education.year edu) ++ ")" ++ nl)
                   (items_of (education p)) text
            else text in
          let text := text ++ "SKILLS" ++ nl in
          if has_items (skills p)
          then text ++ String.concat ", " (items_of (skills p))
          else text
      end
  end)%string.

Record KeywordMatch : Type := {
  matched : list value;
  missing : list value;
  partial : list value
}.

Record SkillGaps : Type := {
  critical : list value;
  recommended : list value;
  nice : list value
}.

Record Analysis : Type := {
  keywordMatch : KeywordMatch;
  recommendedSections : list string;
  toneSuggestions : list (string * string);
  skillGaps : SkillGaps;
  atsScore : value;
  improvements : list string
}.

(** [skill => skill.name || '']. *)
Definition name_or_empty (skill : value) : outcome value :=
  obind (get_prop skill "name") (fun n => Return (or_else n (VStr ""))).

(** [extractedSkills.slice(a, b).map(skill => skill.name || '')]; only an
    array has a [slice] whose result has a [map]. *)
Definition slice_names (a b : nat) (extractedSkills : value) : outcome (list value) :=
  match extractedSkills with
  | VArr items => omap name_or_empty (slice a b items)
  | _ => Throw TypeError
  end.

(** [skill => skill && resumeText &&
     !resumeText.toLowerCase().includes(skill.toLowerCase())]. *)
Definition absent_from (resumeText : string) (skill : value) : outcome bool :=
  if negb (truthy skill) then Return false
  else if String.eqb resumeText "" then Return false
  else match skill with
       | VStr s => Return (negb (includes (toLowerCase resumeText) (toLowerCase s)))
       | _ => Throw TypeError
       end.

(** [extractedSkills.slice(a, b).map(..).filter(..)]. *)
Definition slice_absent (a b : nat) (resumeText : string) (extractedSkills : value)
  : outcome (list value) :=
  obind (slice_names a b extractedSkills) (ofilter (absent_from resumeText)).

(** The object literal returned by [analyzeJobAndProfile], its properties
    evaluated in source order. *)
Definition analysis_of (extractedSkills : value) (resumeText : string)
    (matchScore : value) : outcome Analysis :=
  obind (slice_names 0 3 extractedSkills) (fun matched_ =>
  obind (slice_absent 3 6 resumeText extractedSkills) (fun missing_ =>
  obind (slice_names 6 9 extractedSkills) (fun partial_ =>
  obind (slice_absent 0 2 resumeText extractedSkills) (fun critical_ =>
  obind (slice_absent 2 5 resumeText extractedSkills) (fun recommended_ =>
  obind (slice_names 5 7 extractedSkills) (fun nice_ =>
  Return
    {| keywordMatch :=
         {| matched := matched_; missing := missing_; partial := partial_ |};
       recommendedSections :=
         [ "Professional Summary"; "Technical Skills"; "Work Experience";
           "Education"; "Projects" ];
       toneSuggestions :=
         [ ("industry", "technology"); ("formality", "semi-formal");
           ("focus", "technical expertise") ];
       skillGaps :=
         {| critical := critical_; recommended := recommended_; nice := nice_ |};
       atsScore := matchScore;
       improvements :=
         [ "Add more quantifiable achievements";
           "Include specific projects related to the job requirements";
           "Highlight relevant skills and experiences" ] |})))))).

Record ResumeContent : Type := {
  content : value;
  content_format : string;
  content_tone : string;
  atsCompatibility : value
}.

Record Version : Type := {
  id : Z;
  timestamp : string;
  changes : list string
}.

Record FinalResume : Type := {
  final_content : ResumeContent;
  final_analysis : Analysis;
  atsCheck : value;
  final_template : value;
  generatedResume : value;
  versions : list Version
}.

(** [Array.isArray(x) ? x : (x ? [f x] : [])]. *)
Definition as_array (f : value -> value) (x : value) : list value :=
  match x with
  | VArr items => items
  | _ => if truthy x then [f x] else []
  end.

Definition soft_skills : list string :=
  [ "leadership"; "communication"; "teamwork"; "problem-solving" ].

(** [skill => typeof skill === 'string' && [..].includes(skill.toLowerCase())]. *)
Definition is_soft_skill (skill : value) : bool :=
  match skill with
  | VStr s => existsb (String.eqb (toLowerCase s)) soft_skills
  | _ => false
  end.

Definition of_option_string (x : option string) : value :=
  match x with
  | Some s => VStr s
  | None => VUndefined
  end.

Section Service.
Variable B : builtins.
Variable server : backend.
(** What [new Date().toISOString()] reads during the call. *)
Variable now : string.

(** [checkBackendStatus]. *)
Definition checkBackendStatus : M bool :=
  try_catch
    (_ <- axios server GetModelStatus ;; ret true)
    (fun err => console_error "Backend connection error:" err ;; ret false).

(** [extractSkills]: [response.data] as it comes. *)
Definition extractSkills (jobDescription : string) : M value :=
  try_catch
    (axios server (PostExtractSkills jobDescription))
    (fun error => console_error "Error extracting skills:" error ;; throw error).

(** [calculateMatchScore]. *)
Definition calculateMatchScore (resume : string) (jobSkills : value) : M value :=
  try_catch
    (data <- axios server (PostMatchResume resume jobSkills) ;;
     lift (get_prop data "matchScore"))
    (fun error => console_error "Error calculating match score:" error ;; throw error).

(** [generatePersonalizedResume]. *)
Definition generatePersonalizedResume (resume jobDescription : string)
    (extractedSkills : value) : M value :=
  try_catch
    (axios server (PostGenerateResume resume jobDescription extractedSkills))
    (fun error =>
       console_error "Error generating personalized resume:" error ;; throw error).

(** [analyzeJobAndProfile]. *)
Definition analyzeJobAndProfile (jobDescription : string)
    (candidateProfile : option Profile) : M Analysis :=
  try_catch
    (extractedSkills <- extractSkills jobDescription ;;
     let resumeText := convertProfileToText candidateProfile in
     matchScore <- calculateMatchScore resumeText extractedSkills ;;
     lift (analysis_of extractedSkills resumeText matchScore))
    (fun error => console_error "Error analyzing job and profile:" error ;; throw error).

(** The object literal returned by [generateResumeContent]. *)
Definition content_of (generatedResume : value) (preferences : Preferences)
  : outcome ResumeContent :=
  obind (get_prop generatedResume "experience") (fun experience_ =>
  let experienceArray := as_array (fun x => VStr (ToString B x)) experience_ in
  let skillsArray :=
    as_array (fun x => VStr (ToString B x)) (get generatedResume "skills") in
  obind (get_index (get generatedResume "education") 0) (fun degree_ =>
  obind (get_index (get generatedResume "education") 1) (fun institution_ =>
  Return
    {| content :=
         VObj
           [ ("summary", or_else (get generatedResume "summary") (VStr ""));
             ("experience",
              VArr (map (fun exp =>
                           VObj [ ("title", VStr "Experience");
                                  ("company", VStr "");
                                  ("duration", VStr "");
                                  ("achievements", VArr [exp]) ])
                        experienceArray));
             ("skills",
              VObj [ ("technical", VArr skillsArray);
                     ("soft", VArr (filter is_soft_skill skillsArray)) ]);
             ("education",
              VObj [ ("degree", or_else degree_ (VStr "Bachelor's Degree"));
                     ("institution", or_else institution_ (VStr "University"));
                     ("year", VStr "2020") ]) ];
       content_format := or_default (format preferences) "modern";
       content_tone := or_default (tone preferences) "professional";
       atsCompatibility := or_else (get generatedResume "matchScore") (VNum 85%float) |}))).

(** [generateResumeContent]. *)
Definition generateResumeContent (jobDescription : string)
    (candidateProfile : option Profile) (preferences : Preferences) : M ResumeContent :=
  try_catch
    (extractedSkills <- extractSkills jobDescription ;;
     let resumeText := convertProfileToText candidateProfile in
     generatedResume <-
       generatePersonalizedResume resumeText jobDescription extractedSkills ;;
     lift (content_of generatedResume preferences))
    (fun error => console_error "Error generating resume content:" error ;; throw error).

(** [checkAtsCompatibility]. *)
Definition checkAtsCompatibility (resumeContent : ResumeContent) : M value :=
  try_catch
    (ret (VObj
            [ ("score", or_else (atsCompatibility resumeContent) (VNum 85%float));
              ("issues",
               VArr [ VObj [ ("type", VStr "formatting");
                             ("description", VStr "Use standard section headings");
                             ("severity", VStr "medium") ] ]);
              ("suggestions",
               VArr [ VStr ("Use " ++ dquote ++ "Work Experience" ++ dquote
                            ++ " instead of " ++ dquote ++ "Professional History"
                            ++ dquote)%string;
                      VStr "Ensure all dates are in MM/YYYY format";
                      VStr "Remove graphics and special characters" ]) ]))
    (fun error => console_error "Error checking ATS compatibility:" error ;; throw error).

(** The [generatedResume] property of the object returned by
    [generateFinalResume]. *)
Definition final_generatedResume (candidateProfile : option Profile)
    (generatedResume_ : value) : outcome value :=
  match candidateProfile with
  | None => Throw TypeError
  | Some p =>
      match personalInfo p with
      | None => Throw TypeError
      | Some info =>
          obind (get_prop generatedResume_ "summary") (fun summary_ =>
          Return
            (VObj
               [ ("contact",
                  VObj [ ("name", of_option_string (PersonalInfo.name info));
                         ("email", of_option_string (PersonalInfo.email info));
                         ("phone", of_option_string (PersonalInfo.phone info));
                         ("location", of_option_string (PersonalInfo.location info)) ]);
                 ("summary", or_else summary_ (VStr ""));
                 ("skills",
                  VArr (match get generatedResume_ "skills" with
                        | VArr items => items
                        | _ => []
                        end));
                 ("experience",
                  VArr (as_array (fun x => x) (get generatedResume_ "experience")));
                 ("education",
                  VArr (as_array (fun x => x) (get generatedResume_ "education"))) ]))
      end
  end.

(** [generateFinalResume]. *)
Definition generateFinalResume (jobDescription : string)
    (candidateProfile : option Profile) (preferences : Preferences)
    (template_ : value) : M FinalResume :=
  try_catch
    (backendAvailable <- checkBackendStatus ;;
     if negb backendAvailable
     then throw (Error "Backend service is not available. Please make sure the Python backend is running.")
     else
       analysis <- analyzeJobAndProfile jobDescription candidateProfile ;;
       content_ <- generateResumeContent jobDescription candidateProfile preferences ;;
       atsCheck_ <- checkAtsCompatibility content_ ;;
       extractedSkills <- extractSkills jobDescription ;;
       let resumeText := convertProfileToText candidateProfile in
       generatedResume_ <-
         generatePersonalizedResume resumeText jobDescription extractedSkills ;;
       resume_ <- lift (final_generatedResume candidateProfile generatedResume_) ;;
       ret {| final_content := content_;
              final_analysis := analysis;
              atsCheck := atsCheck_;
              final_template := template_;
              generatedResume := resume_;
              versions :=
                [ {| id := 1; timestamp := now; changes := ["Initial version"] |} ] |})
    (fun error => console_error "Error generating final resume:" error ;; throw error).

End Service.

End ResumeGeneration.

(* ================================================================== *)
(** ** services/resumeGenerationService.js: keywords of a description   *)
(* ================================================================== *)

Module KeywordService.
Import JS.

(** [commonKeywords], category by category. *)
Definition commonKeywords : list (string * list string) :=
  [ ("skills", ["javascript"; "react"; "node"; "python"; "java"; "sql"; "aws"]);
    ("softSkills", ["leadership"; "communication"; "teamwork"; "problem-solving"]);
    ("experience", ["years"; "senior"; "junior"; "lead"; "manager"]);
    ("education", ["bachelor"; "master"; "phd"; "degree"]) ].

(** [extractKeywords]: for each category, the words of the vocabulary
    that the description contains, both taken in lower case. *)
Definition extractKeywords (jobDescription : string) : list (string * list string) :=
  map (fun entry =>
         (fst entry,
          filter (fun word =>
                    includes (toLowerCase jobDescription) (toLowerCase word))
                 (snd entry)))
      commonKeywords.

(** [keywords[category]]. *)
Fixpoint category (name : string) (keywords : list (string * list string))
  : list string :=
  match keywords with
  | [] => []
  | (k, words) :: rest => if String.eqb name k then words else category name rest
  end.

End KeywordService.

(* ================================================================== *)
(** ** services/resume/resumeApiService.js and hooks/useResumeGenerator *)
(* ================================================================== *)

(** The client of the resume backend used by the hook. Only the lines
    written with [console.error] are recorded in the world; those of
    [console.log] and [console.warn] are not. *)
Module ResumeClient.
Import JS Http.
Local Open Scope js_scope.

Section Service.
Variable server : backend.

(** [checkBackendStatus]. *)
Definition checkBackendStatus : M bool :=
  try_catch
    (_ <- axios server GetModelStatus ;; ret true)
    (fun err => console_error "Backend connection error:" err ;; ret false).

(** [extractSkills]: the answer is read as an object with the keys
    [skills], [experience] and [education]; any failure is replaced by a
    fixed error. *)
Definition extractSkills (jobDescription : string) : M value :=
  try_catch
    (data <- axios server (PostExtractSkills jobDescription) ;;
     skills <- lift (get_prop data "skills") ;;
     ret (VObj [ ("skills", or_else skills (VArr []));
                 ("experience", or_else (get data "experience") (VNum 0%float));
                 ("education", or_else (get data "education") (VArr [])) ]))
    (fun err =>
       console_error "Error extracting skills:" err ;;
       throw (Error "Failed to extract skills from job description")).

(** [matchResume]. *)
Definition matchResume (resume : string) (jobSkills : value) : M value :=
  try_catch
    (axios server (PostMatchResume resume jobSkills))
    (fun err =>
       console_error "Error matching resume:" err ;;
       throw (Error "Failed to match resume with job skills")).

(** [generateResume]. *)
Definition generateResume (resume jobDescription : string) (extractedSkills : value)
  : M value :=
  try_catch
    (axios server (PostGenerateResume resume jobDescription extractedSkills))
    (fun err =>
       console_error "Error generating resume:" err ;;
       throw (Error "Failed to generate personalized resume")).

End Service.

End ResumeClient.

Module ResumeHook.
Import JS Http.

Inductive status : Type := checking | connected | disconnected.

(** The state held by [useResumeGenerator]. *)
Record state : Type := {
  jobDescription : string;
  resume : string;
  extractedSkills : value;
  generatedResume : value;
  matchScore : value;
  loading : bool;
  error : string;
  backendStatus : status
}.


Definition setError (msg : string) (st : state) : state :=
  {| jobDescription := jobDescription st; resume := resume st;
     extractedSkills := extractedSkills st; generatedResume := generatedResume st;
     matchScore := matchScore st; loading := loading st;
     error := msg; backendStatus := backendStatus st |}.

Definition setLoading (b : bool) (st : state) : state :=
  {| jobDescription := jobDescription st; resume := resume st;
     extractedSkills := extractedSkills st; generatedResume := generatedResume st;
     matchScore := matchScore st; loading := b;
     error := error st; backendStatus := backendStatus st |}.

Definition setExtractedSkills (v : value) (st : state) : state :=
  {| jobDescription := jobDescription st; resume := resume st;
     extractedSkills := v; generatedResume := generatedResume st;
     matchScore := matchScore st; loading := loading st;
     error := error st; backendStatus := backendStatus st |}.

Definition setGeneratedResume (v : value) (st : state) : state :=
  {| jobDescription := jobDescription st; resume := resume st;
     extractedSkills := extractedSkills st; generatedResume := v;
     matchScore := matchScore st; loading := loading st;
     error := error st; backendStatus := backendStatus st |}.

Definition setMatchScore (v : value) (st : state) : state :=
  {| jobDescription := jobDescription st; resume := resume st;
     extractedSkills := extractedSkills st; generatedResume := generatedResume st;
     matchScore := v; loading := loading st;
     error := error st; backendStatus := backendStatus st |}.

Definition setBackendStatus (s : status) (st : state) : state :=
  {| jobDescription := jobDescription st; resume := resume st;
     extractedSkills := extractedSkills st; generatedResume := generatedResume st;
     matchScore := matchScore st; loading := loading st;
     error := error st; backendStatus := s |}.

(** White space removed by [String.prototype.trim], in ASCII: space, tab,
    line feed, vertical tab, form feed and carriage return. *)
Definition is_whitespace (c : ascii) : bool :=
  let n := nat_of_ascii c in
  (Nat.eqb n 32 || (Nat.leb 9 n && Nat.leb n 13))%bool.

Fixpoint trimStart (s : string) : string :=
  match s with
  | String c s' => if is_whitespace c then trimStart s' else s
  | EmptyString => EmptyString
  end.

Definition reverse (s : string) : string :=
  string_of_list_ascii (rev (list_ascii_of_string s)).

(** [String.prototype.trim] on ASCII text: it removes the white space
    above from both ends. The Unicode spaces that the method also removes
    are outside ASCII and are not modelled. *)
Definition trim (s : string) : string :=
  reverse (trimStart (reverse (trimStart s))).

(** [!s.trim()], for an ASCII string [s]. *)
Definition blank (s : string) : bool := String.eqb (trim s) "".

(** [v.length === 0] for a value that is neither [null] nor [undefined]. *)
Definition length_is_zero (v : value) : bool :=
  match v with
  | VArr items => match items with [] => true | _ => false end
  | VStr s => String.eqb s ""
  | VObj props =>
      match lookup "length" props with
      | Some (VNum n) => PrimFloat.eqb n 0%float
      | _ => false
      end
  | _ => false
  end.

(** ['match_score' in resumeData] for an object or an array. *)
Definition has_match_score (v : value) : bool :=
  match v with
  | VObj props => match lookup "match_score" props with Some _ => true | None => false end
  | _ => false
  end.

Definition cannot_connect : string :=
  "Cannot connect to the backend server. Please make sure it is running.".

Definition no_skills : string :=
  "No skills were extracted from the job description. Please try a more detailed job description.".

Section Hook.
Variable B : builtins.
(** [JSON.stringify(v, null, 2)]. *)
Variable JSON_stringify_indented : value -> string.
(** The [message] of a [TypeError], which depends on the engine. *)
Variable TypeError_message : string.
Variable server : backend.

(** [err.message]. *)
Definition message_of (err : JS.error) : string :=
  match err with
  | AxiosError m => m
  | Error m => m
  | TypeError => TypeError_message
  end.

(** The effect run on mount: [checkStatus]. [checkBackendStatus] does not
    throw, so the [catch] of [checkStatus] is never entered. *)
Definition checkStatus (st : state) : M state :=
  fun w =>
    match ResumeClient.checkBackendStatus server w with
    | (Return isConnected, w') =>
        (Return
           (if isConnected
            then setBackendStatus connected st
            else setError cannot_connect (setBackendStatus disconnected st)),
         w')
    | (Throw err, w') =>
        (Return (setError cannot_connect (setBackendStatus disconnected st)),
         {| sent := sent w';
            console := console w' ++ [("Error checking backend status:", err)] |})
    end.

(** What is done with the answer of the generator. *)
Definition accept_resume (matchResult resumeData : value) (st : state) : state :=
  if (truthy resumeData && String.eqb (typeof resumeData) "object")%bool
  then
    if truthy (get resumeData "personalized_resume")
    then
      let st := setGeneratedResume (get resumeData "personalized_resume") st in
      if has_match_score resumeData
      then setMatchScore (get resumeData "match_score") st
      else st
    else
      setMatchScore (or_else (get matchResult "match_score") (VNum 0%float))
        (setGeneratedResume (VStr (JSON_stringify_indented resumeData)) st)
  else
    setMatchScore (or_else (get matchResult "match_score") (VNum 0%float))
      (setGeneratedResume (VStr (ToString B resumeData)) st).

(** The [try] block of [handleAnalyze]: the state reached, the exception
    that ended the block if any, and the world. *)
Definition analyze_steps (st : state) (w : world) : state * option JS.error * world :=
  match ResumeClient.extractSkills server (jobDescription st) w with
  | (Throw err, w1) => (st, Some err, w1)
  | (Return skillsData, w1) =>
      let skillsArray := or_else (get skillsData "skills") (VArr []) in
      let st1 := setExtractedSkills skillsArray st in
      if length_is_zero skillsArray
      then (st1, Some (Error no_skills), w1)
      else
        match ResumeClient.matchResume server (resume st) skillsArray w1 with
        | (Throw err, w2) => (st1, Some err, w2)
        | (Return matchResult, w2) =>
            match get_prop matchResult "match_score" with
            | Throw err => (st1, Some err, w2)
            | Return score =>
                let st2 := setMatchScore (or_else score (VNum 0%float)) st1 in
                match ResumeClient.generateResume server (resume st)
                        (jobDescription st) skillsArray w2 with
                | (Throw err, w3) => (st2, Some err, w3)
                | (Return resumeData, w3) =>
                    (accept_resume matchResult resumeData st2, None, w3)
                end
            end
        end
  end.

(** [handleAnalyze]: the guards, then [try .. catch .. finally]. It
    returns the state of the hook once every update is applied. *)
Definition handleAnalyze (st : state) : M state :=
  fun w =>
    match backendStatus st with
    | disconnected => (Return (setError cannot_connect st), w)
    | _ =>
        if blank (jobDescription st)
        then (Return (setError "Please enter a job description" st), w)
        else if blank (resume st)
        then (Return (setError "Please enter your resume" st), w)
        else
          match analyze_steps (setLoading true (setError "" st)) w with
          | (st', None, w') => (Return (setLoading false st'), w')
          | (st', Some err, w') =>
              (Return
                 (setLoading false
                    (setError
                       ("An error occurred: "
                        ++ (if String.eqb (message_of err) ""
                            then "Please make sure the Python backend is running and models are trained."
                            else message_of err))%string
                       st')),
               {| sent := sent w';
                  console := console w' ++ [("Error during resume generation:", err)] |})
          end
    end.

(** [handleReset]. *)
Definition handleReset (st : state) : state :=
  setError ""
    (setMatchScore (VNum 0%float)
       (setGeneratedResume VNull
          (setExtractedSkills (VArr [])
             {| jobDescription := ""; resume := "";
                extractedSkills := extractedSkills st;
                generatedResume := generatedResume st;
                matchScore := matchScore st; loading := loading st;
                error := error st; backendStatus := backendStatus st |}))).

End Hook.

End ResumeHook.

(* ================================================================== *)
(** ** The specification's reading of two operations, and test backends *)
(* ================================================================== *)

Module Spec.
Import JS.

(** Section 4.2 of the specification, on skill names: lower-case and
    trim every name, drop the empty ones, collapse duplicates keeping the
    first occurrence. *)
Definition is_space (c : ascii) : bool :=
  let n := nat_of_ascii c in
  (Nat.eqb n 32 || (Nat.leb 9 n && Nat.leb n 13))%bool.

Fixpoint trim_start (s : string) : string :=
  match s with
  | String c s' => if is_space c then trim_start s' else s
  | EmptyString => EmptyString
  end.

Definition rev_string (s : string) : string :=
  string_of_list_ascii (rev (list_ascii_of_string s)).

Definition trim (s : string) : string :=
  rev_string (trim_start (rev_string (trim_start s))).

Fixpoint dedup (seen names : list string) : list string :=
  match names with
  | [] => []
  | n :: rest =>
      if existsb (String.eqb n) seen then dedup seen rest
      else n :: dedup (n :: seen) rest
  end.

Definition normalized_names (names : list string) : list string :=
  dedup []
    (filter (fun n => negb (String.eqb n ""))
            (map (fun n => toLowerCase (trim n)) names)).

(** Section 3: ranked by score, highest first. *)
Fixpoint descending (scores : list float) : bool :=
  match scores with
  | a :: (b :: _) as rest => (PrimFloat.leb b a && descending rest)%bool
  | _ => true
  end.

End Spec.

Module Scenario.
Import JS Http.

Definition builtins0 : builtins :=
  {| Number_toString := fun _ => "0"; JSON_stringify := fun _ => "{}" |}.

(** A backend that is down. *)
Definition down : backend := fun _ _ => inl (AxiosError "Network Error").

(** A backend that rejects the first request and accepts the later ones. *)
Definition recovering : backend :=
  fun n _ => match n with
             | 0 => inl (AxiosError "Network Error")
             | _ => inr (VObj [("status", VStr "ready")])
             end.

Definition six_skills : value :=
  VArr (map (fun n => VObj [("name", VStr n)])
            ["Python"; "SQL"; "React"; "Docker"; "AWS"; "Git"]).

Definition draft : value :=
  VObj [ ("summary", VStr "Engineer");
         ("skills", VArr [VStr "Python"; VStr "Teamwork"]);
         ("experience", VStr "Five years");
         ("education", VArr [VStr "BSc"; VStr "MIT"]);
         ("matchScore", VNum 90%float) ].

(** A backend that is up and whose answers depend on the request only. *)
Definition healthy : backend :=
  fun _ r =>
    match r with
    | GetModelStatus => inr (VObj [("status", VStr "ready")])
    | PostExtractSkills _ => inr six_skills
    | PostMatchResume _ _ => inr (VObj [("matchScore", VNum 100%float)])
    | PostGenerateResume _ _ _ => inr draft
    end.

(** As [healthy], but the generator is out of service. *)
Definition generator_down : backend :=
  fun n r =>
    match r with
    | PostGenerateResume _ _ _ => inl (AxiosError "Request failed with status code 500")
    | _ => healthy n r
    end.

(** A backend whose extractor answers with a fixed payload. *)
Definition extracting (data : value) : backend :=
  fun n r =>
    match r with
    | PostExtractSkills _ => inr data
    | _ => healthy n r
    end.

Definition profile : ResumeGeneration.Profile :=
  {| ResumeGeneration.personalInfo :=
       Some {| ResumeGeneration.PersonalInfo.name := Some "Ada";
               ResumeGeneration.PersonalInfo.email := Some "ada@example.org";
               ResumeGeneration.PersonalInfo.phone := None;
               ResumeGeneration.PersonalInfo.location := Some "London" |};
     ResumeGeneration.experience := Some [];
     ResumeGeneration.education := Some [];
     ResumeGeneration.skills :=
       Some ["Python"; "SQL"; "React"; "Docker"; "AWS"; "Git"] |}.

Definition preferences : ResumeGeneration.Preferences :=
  {| ResumeGeneration.template := Some "modern";
     ResumeGeneration.tone := Some "professional";
     ResumeGeneration.format := Some "chronological" |}.

End Scenario.

(* ================================================================== *)
(** ** Vocabulary of the statements                                     *)
(* ================================================================== *)

Module Obs.
Import JS Http.

(** The [score] of a ranking entry. *)
Definition score_of (candidate : value) : float :=
  match get candidate "score" with
  | VNum n => n
  | _ => nan
  end.

(** The entries of a ranking result. *)
Definition ranked (result : value) : list value :=
  match get result "rankings" with
  | VArr items => items
  | _ => []
  end.

(** The elements of an array value. *)
Definition elements (v : value) : list value :=
  match v with
  | VArr items => items
  | _ => []
  end.

(** The [name] of a skill entry, when it is a string. *)
Definition name_of (skill : value) : option string :=
  match get skill "name" with
  | VStr s => Some s
  | _ => None
  end.

(** An object that has a [name] property. *)
Definition has_name (v : value) : bool :=
  match v with
  | VObj props => match lookup "name" props with Some _ => true | None => false end
  | _ => false
  end.

(** An object whose [name] property is a string. *)
Definition has_string_name (v : value) : bool :=
  match v with
  | VObj props => match lookup "name" props with Some (VStr _) => true | _ => false end
  | _ => false
  end.

Definition is_string (v : value) : bool :=
  match v with VStr _ => true | _ => false end.

(** An answer element whose [skill] and [name] properties, when it is an
    object that has them, are strings. *)
Definition plain_skill (v : value) : bool :=
  match v with
  | VObj props =>
      forallb (fun kv =>
                 if (String.eqb (fst kv) "skill" || String.eqb (fst kv) "name")%bool
                 then is_string (snd kv) else true)
              props
  | _ => true
  end.

(** How one element of the answer is turned into a skill entry. *)
Inductive normalized (B : builtins) : value -> value -> Prop :=
| normalized_string (s : string) :
    normalized B (VStr s) (VObj [("name", VStr s)])
| normalized_by_skill (props : list (string * value)) :
    truthy (get (VObj props) "skill") = true ->
    normalized B (VObj props)
      (VObj (spread [("name", get (VObj props) "skill")] props))
| normalized_by_name (props : list (string * value)) :
    truthy (get (VObj props) "skill") = false ->
    truthy (get (VObj props) "name") = true ->
    normalized B (VObj props) (VObj props)
| normalized_object (props : list (string * value)) :
    truthy (get (VObj props) "skill") = false ->
    truthy (get (VObj props) "name") = false ->
    normalized B (VObj props) (VObj [("name", VStr (JSON_stringify B (VObj props)))])
| normalized_array (items : list value) :
    normalized B (VArr items) (VObj [("name", VStr (JSON_stringify B (VArr items)))])
| normalized_other (v : value) :
    typeof v <> "string" -> typeof v <> "object" ->
    normalized B v (VObj [("name", VStr (ToString B v))]).



(** What the analysis lists for a skill: [skill.name || '']. *)
Definition listed_name (skill : value) : value := or_else (get skill "name") (VStr "").

(** The text does not contain the name, both taken in lower case. *)
Definition lacks (text name : string) : bool :=
  negb (includes (toLowerCase text) (toLowerCase name)).

(** The skill at position [i] of the extraction, between the bounds
    [a <= i < b], whose name is the non-empty string [name]. *)
Definition named_at (items : list value) (a b : nat) (name : string) : Prop :=
  exists (i : nat) (skill : value),
    a <= i < b /\ nth_error items i = Some skill /\
    get skill "name" = VStr name /\ name <> "".


(** A backend whose answers depend on the request only: an unchanged
    scorer, extractor and generator. *)
Definition stateless (server : backend) : Prop :=
  forall (n m : nat) (r : request), server n r = server m r.

(** Two outcomes that throw the same error or return related values. *)
Definition orel {A} (R : A -> A -> Prop) (o1 o2 : outcome A) : Prop :=
  match o1, o2 with
  | Return a, Return b => R a b
  | Throw e1, Throw e2 => e1 = e2
  | _, _ => False
  end.

(** Two computations whose outcomes are related from any two worlds. *)
Definition related {A} (R : A -> A -> Prop) (c1 c2 : M A) : Prop :=
  forall w1 w2 : world, orel R (fst (c1 w1)) (fst (c2 w2)).

(** The single version entry written at time [now]. *)
Definition initial_version (now : string) : ResumeGeneration.Version :=
  {| ResumeGeneration.id := 1;
     ResumeGeneration.timestamp := now;
     ResumeGeneration.changes := ["Initial version"] |}.

(** Two final resumes, written at [now1] and [now2], that differ at most
    by the time stamp of their version entry. *)
Definition same_but_timestamp (now1 now2 : string)
    (r1 r2 : ResumeGeneration.FinalResume) : Prop :=
  ResumeGeneration.final_content r1 = ResumeGeneration.final_content r2 /\
  ResumeGeneration.final_analysis r1 = ResumeGeneration.final_analysis r2 /\
  ResumeGeneration.atsCheck r1 = ResumeGeneration.atsCheck r2 /\
  ResumeGeneration.final_template r1 = ResumeGeneration.final_template r2 /\
  ResumeGeneration.generatedResume r1 = ResumeGeneration.generatedResume r2 /\
  ResumeGeneration.versions r1 = [initial_version now1] /\
  ResumeGeneration.versions r2 = [initial_version now2].

(** A computation that stops at the first request the backend rejects
    and throws the error of that request. [new] are the requests it sends. *)
Definition fail_stop {A} (server : backend) (c : M A) : Prop :=
  forall w : world,
  exists new : list request,
    sent (snd (c w)) = sent w ++ new /\
    forall (k : nat) (r : request) (e : error),
      nth_error new k = Some r ->
      server (length (sent w) + k) r = inl e ->
      fst (c w) = Throw e /\ length new = S k.

(** The error thrown when the status probe fails. *)
Definition backend_unavailable : error :=
  Error "Backend service is not available. Please make sure the Python backend is running.".

(** The world after one more request. *)
Definition after (w : world) (r : request) : world :=
  {| sent := sent w ++ [r]; console := console w |}.

End Obs.

(* ================================================================== *)
(** ** Vocabulary of the further statements                             *)
(* ================================================================== *)

Module ObsHook.
Import JS Http.

(** The error by which the client replaces any failure of an extraction. *)
Definition extraction_failed : error :=
  Error "Failed to extract skills from job description".


(** The fields of the hook state that [handleAnalyze] never writes. *)
Definition same_inputs (st st' : ResumeHook.state) : Prop :=
  ResumeHook.jobDescription st' = ResumeHook.jobDescription st /\
  ResumeHook.resume st' = ResumeHook.resume st /\
  ResumeHook.backendStatus st' = ResumeHook.backendStatus st.

(** A hook whose form is filled in and whose backend was found up. *)
Definition filled : ResumeHook.state :=
  {| ResumeHook.jobDescription := "Need React and Python, 5 years";
     ResumeHook.resume := "I know react and sql";
     ResumeHook.extractedSkills := VArr [];
     ResumeHook.generatedResume := VNull;
     ResumeHook.matchScore := VNum 0%float;
     ResumeHook.loading := false;
     ResumeHook.error := "";
     ResumeHook.backendStatus := ResumeHook.connected |}.

(** A backend that answers in the shape the client expects. *)
Definition hook_backend : backend :=
  fun _ r =>
    match r with
    | GetModelStatus => inr (VObj [("status", VStr "ready")])
    | PostExtractSkills _ =>
        inr (VObj [("skills", VArr [VObj [("name", VStr "react")];
                                    VObj [("name", VStr "python")]])])
    | PostMatchResume _ _ => inr (VObj [("match_score", VNum 50%float)])
    | PostGenerateResume _ _ _ =>
        inr (VObj [("personalized_resume", VStr "Tailored resume");
                   ("match_score", VNum 60%float)])
    end.

End ObsHook.

(* ================================================================== *)
(** ** Properties                                                       *)
(* ================================================================== *)



Import JS Http Obs.

(* ------------------------------------------------------------------ *)
(** *** Candidate ranking                                               *)
(* ------------------------------------------------------------------ *)

(** C2 (as amended) - Whatever the job description, the candidates and
    the time of the call, [rankCandidates] answers with the canned
    ranking: John Doe (85) followed by Jane Smith (92), in that order. *)
Theorem rankCandidates_is_canned :
  forall (now jobDescription : string) (candidates : list value),
    get (MockAi.rankCandidates now jobDescription candidates) "rankings"
      = MockAi.mockResponses_ranking /\
    map (fun c => get c "candidateName")
        (ranked (MockAi.rankCandidates now jobDescription candidates))
      = [VStr "John Doe"; VStr "Jane Smith"] /\
    map (fun c => get c "score")
        (ranked (MockAi.rankCandidates now jobDescription candidates))
      = [VNum 85%float; VNum 92%float].
Proof. intros. repeat split. Qed.

(** C2, counterexample - Asked to rank two candidates, the service lists
    a score of 85 before a score of 92: the result is not in descending
    order of score. *)
Lemma rankCandidates_not_descending :
  let result :=
    MockAi.rankCandidates "2025-01-01T00:00:00.000Z" "job"
      [ VObj [("id", VNum 1%float)]; VObj [("id", VNum 2%float)] ] in
  map score_of (ranked result) = [85%float; 92%float] /\
  Spec.descending (map score_of (ranked result)) = false.
Proof. split; reflexivity. Qed.

(** The ranking component iterates over the object returned by
    [rankCandidates], which is not iterable: it always ends in its error
    state and keeps the rankings it had. *)
Lemma analyzeCandidates_fails :
  forall predict now jobDescription candidates historicalData st,
    MockAi.analyzeCandidates predict now jobDescription candidates historicalData st
    = {| MockAi.rankings := MockAi.rankings st;
         MockAi.loading := false;
         MockAi.error_message := Some "Failed to rank candidates. Please try again." |}.
Proof. reflexivity. Qed.

(* ------------------------------------------------------------------ *)
(** *** Backend status                                                  *)
(* ------------------------------------------------------------------ *)

(** C6 (as amended) - Every call to [checkBackendStatus] sends one
    model-status request, whatever happened before; it answers [true]
    exactly when that request succeeds, logs the failure otherwise, and
    never throws. Nothing is cached. *)
Theorem checkBackendStatus_probes_every_call :
  forall (server : backend) (w : world),
    ResumeApi.checkBackendStatus server w =
    match server (length (sent w)) GetModelStatus with
    | inr _ =>
        (Return true, {| sent := sent w ++ [GetModelStatus]; console := console w |})
    | inl err =>
        (Return false,
         {| sent := sent w ++ [GetModelStatus];
            console := console w ++ [("Backend connection error:", err)] |})
    end.
Proof.
  intros server w.
  unfold ResumeApi.checkBackendStatus, try_catch, bind, axios, console_error, ret.
  destruct (server (length (sent w)) GetModelStatus); reflexivity.
Qed.

(** C6, counterexample - After a failed probe, the very next call puts a
    second request on the network; and when the backend has come back in
    the meantime it answers [true]. *)
Lemma checkBackendStatus_reprobes_after_failure :
  (let first := ResumeApi.checkBackendStatus Scenario.down empty_world in
   let second := ResumeApi.checkBackendStatus Scenario.down (snd first) in
   fst first = Return false /\
   sent (snd first) = [GetModelStatus] /\
   sent (snd second) = [GetModelStatus; GetModelStatus]) /\
  (let first := ResumeApi.checkBackendStatus Scenario.recovering empty_world in
   let second := ResumeApi.checkBackendStatus Scenario.recovering (snd first) in
   fst first = Return false /\ fst second = Return true).
Proof. repeat split. Qed.

(* ------------------------------------------------------------------ *)
(** *** Failures of the extractor and of the scorer                     *)
(* ------------------------------------------------------------------ *)

(** C4 (as amended) - When the extraction request fails, [extractSkills]
    writes the error to the console and throws that same error to its
    caller; it returns nothing. *)
Theorem extractSkills_rethrows :
  forall (B : builtins) (server : backend) (jobDescription : string)
         (w : world) (err : error),
    server (length (sent w)) (PostExtractSkills jobDescription) = inl err ->
    ResumeApi.extractSkills B server jobDescription w =
    (Throw err,
     {| sent := sent w ++ [PostExtractSkills jobDescription];
        console := console w ++ [("Error extracting skills:", err)] |}).
Proof.
  intros B server jd w err H.
  unfold ResumeApi.extractSkills, try_catch, bind, axios, console_error, throw.
  rewrite H. reflexivity.
Qed.

Lemma extractSkills_rethrows_witness :
  ResumeApi.extractSkills Scenario.builtins0 Scenario.down "Need React" empty_world =
  (Throw (AxiosError "Network Error"),
   {| sent := [PostExtractSkills "Need React"];
      console := [("Error extracting skills:", AxiosError "Network Error")] |}).
Proof.
  apply (extractSkills_rethrows Scenario.builtins0 Scenario.down "Need React"
           empty_world (AxiosError "Network Error")).
  reflexivity.
Defined.

(** C4, counterexample - With the backend down, the call ends with an
    exception and not with an empty list of skills. *)
Lemma extractSkills_raises_when_unavailable :
  fst (ResumeApi.extractSkills Scenario.builtins0 Scenario.down "Need React" empty_world)
    = Throw (AxiosError "Network Error") /\
  fst (ResumeApi.extractSkills Scenario.builtins0 Scenario.down "Need React" empty_world)
    <> Return (VArr []).
Proof. split; [reflexivity | discriminate]. Qed.

(** C7 (as amended) - [calculateMatchScore] has no fallback. When the
    scoring request fails it writes the error to the console and throws
    it; when the request succeeds it returns the [matchScore] property of
    the answer as it is (and throws a [TypeError] on a [null] answer). *)
Theorem calculateMatchScore_has_no_fallback :
  forall (server : backend) (resume : string) (jobSkills : value) (w : world),
    let w' := {| sent := sent w ++ [PostMatchResume resume jobSkills];
                 console := console w |} in
    let logged err :=
      {| sent := sent w ++ [PostMatchResume resume jobSkills];
         console := console w ++ [("Error calculating match score:", err)] |} in
    ResumeApi.calculateMatchScore server resume jobSkills w =
    match server (length (sent w)) (PostMatchResume resume jobSkills) with
    | inl err => (Throw err, logged err)
    | inr VNull | inr VUndefined => (Throw TypeError, logged TypeError)
    | inr data => (Return (get data "matchScore"), w')
    end.
Proof.
  intros server resume jobSkills w.
  unfold ResumeApi.calculateMatchScore, try_catch, bind, axios, console_error,
    throw, lift, get_prop.
  destruct (server (length (sent w)) (PostMatchResume resume jobSkills)) as [err|data];
    [reflexivity|].
  destruct data; reflexivity.
Qed.

(** C7, counterexample - With the scorer unreachable no score comes back
    at all, whatever the two skill sets: the call throws. *)
Lemma calculateMatchScore_raises_when_unreachable :
  let run :=
    ResumeApi.calculateMatchScore Scenario.down "I know react and sql"
      (VArr [VObj [("name", VStr "react")]; VObj [("name", VStr "python")]])
      empty_world in
  fst run = Throw (AxiosError "Network Error") /\
  (forall score : value, fst run <> Return score).
Proof. split; [reflexivity | intros score H; discriminate H]. Qed.

(* ------------------------------------------------------------------ *)
(** *** What [extractSkills] does with the extractor's answer           *)
(* ------------------------------------------------------------------ *)

Lemma omap_Forall2 {A C} (f : A -> outcome C) (l : list A) (ys : list C) :
  omap f l = Return ys -> Forall2 (fun x y => f x = Return y) l ys.
Proof.
  revert ys. induction l as [|x l IH]; intros ys H; cbn in H.
  - injection H as <-. constructor.
  - destruct (f x) as [y|e] eqn:Ex; cbn in H; [|discriminate].
    destruct (omap f l) as [zs|e] eqn:El; cbn in H; [|discriminate].
    injection H as <-. constructor; [assumption | apply IH; reflexivity].
Qed.

Lemma omap_total {A C} (f : A -> outcome C) (l : list A) :
  (forall x, In x l -> exists y, f x = Return y) ->
  exists ys, omap f l = Return ys.
Proof.
  induction l as [|x l IH]; intros H; cbn.
  - eexists; reflexivity.
  - destruct (H x (or_introl eq_refl)) as [y ->].
    destruct IH as [ys ->]; [intros z Hz; apply H; right; exact Hz|].
    eexists; reflexivity.
Qed.

Lemma omap_pure {A C} (f : A -> outcome C) (g : A -> C) (l : list A) :
  (forall x, In x l -> f x = Return (g x)) -> omap f l = Return (map g l).
Proof.
  induction l as [|x l IH]; intros H; cbn; [reflexivity|].
  rewrite (H x (or_introl eq_refl)); cbn.
  rewrite IH; [reflexivity | intros z Hz; apply H; right; exact Hz].
Qed.

Lemma lookup_set_prop (k k' : string) (v : value) (props : list (string * value)) :
  lookup k (set_prop k' v props)
  = if String.eqb k k' then Some v else lookup k props.
Proof.
  induction props as [|[k0 v0] props IH]; cbn.
  - reflexivity.
  - destruct (String.eqb_spec k' k0) as [->|Hne]; cbn.
    + destruct (String.eqb k k0); reflexivity.
    + destruct (String.eqb_spec k k0) as [->|Hne'].
      * destruct (String.eqb_spec k0 k') as [E|_]; [congruence | reflexivity].
      * exact IH.
Qed.

(** After a spread, a key holds its initial value or one given by the
    spread object; a key written before the spread stays. *)
Lemma lookup_spread (k : string) (src init : list (string * value)) :
  (forall v, lookup k (spread init src) = Some v ->
             lookup k init = Some v \/ In (k, v) src) /\
  (lookup k init <> None -> lookup k (spread init src) <> None).
Proof.
  unfold spread. revert init.
  induction src as [|[k0 v0] src IH]; intros init; cbn.
  - split; [intros v H; left; exact H | trivial].
  - destruct (IH (set_prop k0 v0 init)) as [IH1 IH2]. split.
    + intros v H. apply IH1 in H. destruct H as [H|H]; [|right; right; exact H].
      rewrite lookup_set_prop in H.
      destruct (String.eqb_spec k k0) as [->|_]; [|left; exact H].
      injection H as <-. right; left; reflexivity.
    + intros H. apply IH2. rewrite lookup_set_prop.
      destruct (String.eqb k k0); [discriminate | exact H].
Qed.

Lemma normalizeSkill_normalized (B : builtins) (skill out : value) :
  ResumeApi.normalizeSkill B skill = Return out -> normalized B skill out.
Proof.
  destruct skill as [| |b|n|s|items|props]; cbn; intros H.
  - injection H as <-. apply (normalized_other B VUndefined); discriminate.
  - discriminate.
  - injection H as <-. apply (normalized_other B (VBool b)); discriminate.
  - injection H as <-. apply (normalized_other B (VNum n)); discriminate.
  - injection H as <-. constructor.
  - injection H as <-. constructor.
  - change (match lookup "skill" props with Some v => v | None => VUndefined end)
      with (get (VObj props) "skill") in H.
    change (match lookup "name" props with Some v => v | None => VUndefined end)
      with (get (VObj props) "name") in H.
    destruct (truthy (get (VObj props) "skill")) eqn:Es.
    + injection H as <-. constructor; assumption.
    + destruct (truthy (get (VObj props) "name")) eqn:En; injection H as <-.
      * apply normalized_by_name; assumption.
      * apply normalized_object; assumption.
Qed.

Lemma normalizeSkill_total (B : builtins) (skill : value) :
  skill <> VNull -> exists out, ResumeApi.normalizeSkill B skill = Return out.
Proof.
  intros Hn. destruct skill as [| |b|n|s|items|props]; cbn;
    try (eexists; reflexivity); try congruence.
  destruct (truthy _); [eexists; reflexivity|].
  destruct (truthy _); eexists; reflexivity.
Qed.

Lemma plain_lookup (k : string) (props : list (string * value)) (v : value) :
  plain_skill (VObj props) = true ->
  (k = "skill" \/ k = "name") ->
  In (k, v) props -> is_string v = true.
Proof.
  cbn. intros Hp Hk Hin. rewrite forallb_forall in Hp.
  specialize (Hp _ Hin). cbn in Hp.
  destruct Hk as [-> | ->]; cbn in Hp; exact Hp.
Qed.

Lemma lookup_In (k : string) (props : list (string * value)) (v : value) :
  lookup k props = Some v -> In (k, v) props.
Proof.
  induction props as [|[k0 v0] props IH]; cbn; [discriminate|].
  destruct (String.eqb_spec k k0) as [->|_].
  - intros H; injection H as <-. left; reflexivity.
  - intros H; right; apply IH; exact H.
Qed.

Lemma normalized_has_name (B : builtins) (skill out : value) :
  normalized B skill out ->
  has_name out = true /\ (plain_skill skill = true -> has_string_name out = true).
Proof.
  intros H. destruct H as [s|props Hs|props Hs Hn|props Hs Hn|items|v H1 H2];
    try (split; reflexivity).
  - (* by skill *)
    destruct (lookup_spread "name" props [("name", get (VObj props) "skill")]) as [L1 L2].
    cbn. destruct (lookup "name" (spread _ props)) as [n|] eqn:E.
    + split; [reflexivity|]. intros Hp.
      destruct (L1 n eq_refl) as [Hi|Hi].
      * cbn in Hi. injection Hi as <-.
        cbn in Hs |- *. destruct (lookup "skill" props) as [sk|] eqn:Esk; [|discriminate].
        apply lookup_In in Esk.
        pose proof (plain_lookup "skill" props sk Hp (or_introl eq_refl) Esk) as Hstr.
        destruct sk; try discriminate; reflexivity.
      * pose proof (plain_lookup "name" props n Hp (or_intror eq_refl) Hi) as Hstr.
        destruct n; try discriminate; reflexivity.
    + exfalso. apply L2; [cbn; discriminate | reflexivity].
  - (* by name *)
    cbn in Hn |- *. destruct (lookup "name" props) as [n|] eqn:En; [|discriminate].
    split; [reflexivity|]. intros Hp. apply lookup_In in En.
    pose proof (plain_lookup "name" props n Hp (or_intror eq_refl) En) as Hstr.
    destruct n; try discriminate; reflexivity.
Qed.

Lemma extractSkills_on_array (B : builtins) (server : backend) (jd : string)
    (w : world) (items : list value) :
  server (length (sent w)) (PostExtractSkills jd) = inr (VArr items) ->
  ResumeApi.extractSkills B server jd w =
  match omap (ResumeApi.normalizeSkill B) items with
  | Return out => (Return (VArr out), after w (PostExtractSkills jd))
  | Throw e =>
      (Throw e,
       {| sent := sent w ++ [PostExtractSkills jd];
          console := console w ++ [("Error extracting skills:", e)] |})
  end.
Proof.
  intros H.
  unfold ResumeApi.extractSkills, try_catch, bind, axios, console_error, throw,
    lift, ret, after.
  rewrite H. cbn.
  destruct (omap (ResumeApi.normalizeSkill B) items); reflexivity.
Qed.

(** C10 (as amended) - When the answer is not an array, [extractSkills]
    returns the empty list. When it is an array without [null], it
    returns one entry per element: a string [s] becomes [{name: s}]; an
    object with a truthy [skill] gets [name] set from it unless it has a
    [name] of its own; an object with a truthy [name] is passed as it is;
    any other object or array becomes [{name: JSON.stringify(..)}], any
    other value [{name: String(..)}]. Every entry is an object with a
    [name] property, and that name is a string provided the [skill] and
    [name] properties of the objects of the answer are strings. *)
Theorem extractSkills_entries_have_a_name :
  forall (B : builtins) (server : backend) (jobDescription : string)
         (w : world) (data : value),
    server (length (sent w)) (PostExtractSkills jobDescription) = inr data ->
    (isArray data = false ->
     ResumeApi.extractSkills B server jobDescription w
     = (Return (VArr []), after w (PostExtractSkills jobDescription))) /\
    (forall items : list value,
        data = VArr items -> ~ In VNull items ->
        exists out : list value,
          ResumeApi.extractSkills B server jobDescription w
          = (Return (VArr out), after w (PostExtractSkills jobDescription)) /\
          Forall2 (normalized B) items out /\
          Forall (fun entry => has_name entry = true) out /\
          (Forall (fun item => plain_skill item = true) items ->
           Forall (fun entry => has_string_name entry = true) out)).
Proof.
  intros B server jd w data Hresp. split.
  - intros Hna.
    unfold ResumeApi.extractSkills, try_catch, bind, axios, ret, after.
    rewrite Hresp. destruct data; try reflexivity. discriminate Hna.
  - intros items -> Hnull.
    destruct (omap_total (ResumeApi.normalizeSkill B) items) as [out Hout].
    { intros x Hx. apply normalizeSkill_total. intros ->. apply Hnull, Hx. }
    exists out. rewrite (extractSkills_on_array B server jd w items Hresp), Hout.
    split; [reflexivity|].
    apply omap_Forall2 in Hout.
    assert (Hnorm : Forall2 (normalized B) items out).
    { clear -Hout. induction Hout; constructor;
        [apply normalizeSkill_normalized; assumption | assumption]. }
    split; [exact Hnorm|]. clear Hout Hnull Hresp. split.
    + induction Hnorm as [|x y xs ys Hxy _ IH]; constructor;
        [apply (normalized_has_name B x y Hxy) | exact IH].
    + intros Hplain. induction Hnorm as [|x y xs ys Hxy _ IH]; constructor.
      * apply (normalized_has_name B x y Hxy). inversion Hplain; assumption.
      * apply IH. inversion Hplain; assumption.
Qed.

Lemma extractSkills_entries_have_a_name_witness :
  exists out : list value,
    ResumeApi.extractSkills Scenario.builtins0
      (Scenario.extracting
         (VArr [ VStr "React";
                 VObj [("skill", VStr "Python"); ("category", VStr "language")];
                 VBool true ]))
      "Need React and Python" empty_world
    = (Return (VArr out), after empty_world (PostExtractSkills "Need React and Python")) /\
    Forall (fun entry => has_string_name entry = true) out.
Proof.
  destruct (extractSkills_entries_have_a_name Scenario.builtins0
              (Scenario.extracting
                 (VArr [ VStr "React";
                         VObj [("skill", VStr "Python"); ("category", VStr "language")];
                         VBool true ]))
              "Need React and Python" empty_world _ eq_refl) as [_ H].
  destruct (H _ eq_refl) as (out & Hrun & _ & _ & Hstr).
  - cbn. intros [E|[E|[E|[]]]]; discriminate E.
  - exists out. split; [exact Hrun|]. apply Hstr.
    repeat constructor.
Defined.

(** C10, counterexample - An answer element whose [name] is the number
    42 is passed through as it is: the entry returned has a [name] that is
    not a string. *)
Lemma extractSkills_keeps_a_numeric_name :
  fst (ResumeApi.extractSkills Scenario.builtins0
         (Scenario.extracting (VArr [VObj [("name", VNum 42%float)]]))
         "Need React" empty_world)
  = Return (VArr [VObj [("name", VNum 42%float)]]) /\
  forallb has_string_name [VObj [("name", VNum 42%float)]] = false.
Proof. split; reflexivity. Qed.

(** C3 (as amended) - [extractSkills] returns, whenever it returns, one
    entry per candidate skill of the answer, in the same order, and a
    candidate given as the string [s] becomes [{name: s}] with [s] as it
    came: no name is lower-cased or trimmed, no duplicate is collapsed and
    no empty name is dropped. On an answer made of strings it always
    returns. *)
Theorem extractSkills_keeps_every_candidate :
  forall (B : builtins) (server : backend) (jobDescription : string)
         (w : world) (items : list value),
    server (length (sent w)) (PostExtractSkills jobDescription) = inr (VArr items) ->
    (forall out : value,
        fst (ResumeApi.extractSkills B server jobDescription w) = Return out ->
        length (elements out) = length items /\
        forall (i : nat) (s : string),
          nth_error items i = Some (VStr s) ->
          nth_error (elements out) i = Some (VObj [("name", VStr s)])) /\
    (forall names : list string,
        items = map VStr names ->
        fst (ResumeApi.extractSkills B server jobDescription w)
        = Return (VArr (map (fun s => VObj [("name", VStr s)]) names))).
Proof.
  intros B server jd w items Hresp.
  rewrite (extractSkills_on_array B server jd w items Hresp). split.
  - intros out Hout.
    destruct (omap (ResumeApi.normalizeSkill B) items) as [l|e] eqn:El;
      cbn in Hout; [|discriminate].
    injection Hout as <-. cbn. apply omap_Forall2 in El. split.
    + exact (eq_sym (Forall2_length El)).
    + clear Hresp. induction El as [|x y xs ys Hxy _ IH]; intros i s Hi.
      * destruct i; discriminate.
      * destruct i as [|i]; cbn in Hi |- *.
        -- injection Hi as ->. cbn in Hxy. injection Hxy as <-. reflexivity.
        -- apply IH, Hi.
  - intros names ->.
    rewrite (omap_pure (ResumeApi.normalizeSkill B)
               (fun v => match v with
                         | VStr s => VObj [("name", VStr s)]
                         | _ => v
                         end)).
    + cbn. rewrite map_map. reflexivity.
    + intros x Hx. apply in_map_iff in Hx. destruct Hx as (s & <- & _). reflexivity.
Qed.

Lemma extractSkills_keeps_every_candidate_witness :
  fst (ResumeApi.extractSkills Scenario.builtins0
         (Scenario.extracting (VArr (map VStr ["React"; "Python"])))
         "Need React and Python" empty_world)
  = Return (VArr [VObj [("name", VStr "React")]; VObj [("name", VStr "Python")]]).
Proof.
  exact (proj2 (extractSkills_keeps_every_candidate Scenario.builtins0
                  (Scenario.extracting (VArr (map VStr ["React"; "Python"])))
                  "Need React and Python" empty_world
                  (map VStr ["React"; "Python"]) eq_refl)
               ["React"; "Python"] eq_refl).
Defined.

(** C3, counterexample - On the candidates "React", " react ", "REACT",
    "  " and "" the names come back exactly as given, five of them, where
    lower-casing, trimming, dropping the blank names and collapsing the
    duplicates would leave the single name "react". *)
Lemma extractSkills_does_not_normalize :
  let candidates := ["React"; " react "; "REACT"; "  "; ""] in
  let run :=
    ResumeApi.extractSkills Scenario.builtins0
      (Scenario.extracting (VArr (map VStr candidates)))
      "Need React" empty_world in
  (exists out : list value,
      fst run = Return (VArr out) /\
      map name_of out = map Some candidates) /\
  Spec.normalized_names candidates = ["react"] /\
  candidates <> Spec.normalized_names candidates.
Proof.
  cbv zeta. split; [|split].
  - eexists. split; reflexivity.
  - reflexivity.
  - discriminate.
Qed.

(* ------------------------------------------------------------------ *)
(** *** Skill gaps                                                      *)
(* ------------------------------------------------------------------ *)

Lemma omap_In {A C} (f : A -> outcome C) (l : list A) (ys : list C) :
  omap f l = Return ys ->
  forall y, In y ys <-> exists x, In x l /\ f x = Return y.
Proof.
  revert ys. induction l as [|x l IH]; intros ys H y; cbn in H.
  - injection H as <-. split; [intros [] | intros (x & [] & _)].
  - destruct (f x) as [y0|e] eqn:Ex; cbn in H; [|discriminate].
    destruct (omap f l) as [zs|e] eqn:El; cbn in H; [|discriminate].
    injection H as <-. specialize (IH zs eq_refl y). cbn. split.
    + intros [<-|Hin].
      * exists x. split; [left; reflexivity | exact Ex].
      * apply IH in Hin. destruct Hin as (x' & Hx' & Hf).
        exists x'. split; [right; exact Hx' | exact Hf].
    + intros (x' & [<-|Hx'] & Hf).
      * left. congruence.
      * right. apply IH. exists x'. split; assumption.
Qed.


Lemma ofilter_In {A} (f : A -> outcome bool) (l ys : list A) :
  ofilter f l = Return ys ->
  forall y, In y ys <-> In y l /\ f y = Return true.
Proof.
  revert ys. induction l as [|x l IH]; intros ys H y; cbn in H.
  - injection H as <-. split; [intros [] | intros [[] _]].
  - destruct (f x) as [b|e] eqn:Ex; cbn in H; [|discriminate].
    destruct (ofilter f l) as [zs|e] eqn:El; cbn in H; [|discriminate].
    injection H as <-. specialize (IH zs eq_refl y). cbn.
    destruct b; cbn; rewrite ?IH; split.
    + intros [<-|[Hin Hf]]; [split; [left; reflexivity | exact Ex] |].
      split; [right; exact Hin | exact Hf].
    + intros [[<-|Hin] Hf]; [left; reflexivity | right; split; assumption].
    + intros [Hin Hf]. split; [right; exact Hin | exact Hf].
    + intros [[<-|Hin] Hf]; [congruence | split; assumption].
Qed.

Lemma In_slice {A} (a b : nat) (l : list A) (x : A) :
  In x (slice a b l) <-> exists i, a <= i < b /\ nth_error l i = Some x.
Proof.
  unfold slice. rewrite In_iff_nth_error. split.
  - intros (j & Hj). rewrite nth_error_firstn, nth_error_skipn in Hj.
    destruct (Nat.ltb_spec j (b - a)) as [Hlt|_]; [|discriminate].
    exists (a + j). split; [lia | exact Hj].
  - intros (i & Hi & Hx). exists (i - a).
    rewrite nth_error_firstn, nth_error_skipn.
    destruct (Nat.ltb_spec (i - a) (b - a)) as [_|Hge]; [|lia].
    replace (a + (i - a)) with i by lia. exact Hx.
Qed.

Lemma name_or_empty_spec (skill out : value) :
  ResumeGeneration.name_or_empty skill = Return out -> out = listed_name skill.
Proof.
  unfold ResumeGeneration.name_or_empty, get_prop, listed_name.
  destruct skill; cbn; intros H; try discriminate; injection H as <-; reflexivity.
Qed.

Lemma name_or_empty_named (skill : value) (name : string) :
  get skill "name" = VStr name -> name <> "" ->
  ResumeGeneration.name_or_empty skill = Return (VStr name).
Proof.
  intros Hget Hne.
  unfold ResumeGeneration.name_or_empty, get_prop.
  destruct skill; try discriminate Hget.
  cbn [obind]. rewrite Hget. unfold or_else. cbn.
  destruct (String.eqb_spec name ""); [contradiction | reflexivity].
Qed.

Lemma absent_from_true (text : string) (g : value) :
  ResumeGeneration.absent_from text g = Return true <->
  exists name, g = VStr name /\ name <> "" /\ text <> "" /\ lacks text name = true.
Proof.
  unfold ResumeGeneration.absent_from, lacks. split.
  - destruct (truthy g) eqn:Hg; cbn; [|discriminate].
    destruct (String.eqb_spec text "") as [->|Ht]; [discriminate|].
    destruct g; try discriminate. intros H. injection H as H.
    exists s. repeat split; try assumption.
    cbn in Hg. destruct (String.eqb_spec s ""); [discriminate | assumption].
  - intros (name & -> & Hn & Ht & Hl). cbn.
    destruct (String.eqb_spec name ""); [contradiction|]. cbn.
    destruct (String.eqb_spec text ""); [contradiction|]. rewrite Hl. reflexivity.
Qed.

(** The gaps reported for the positions [a <= i < b] of the extraction. *)
Lemma slice_absent_spec (a b : nat) (text : string) (items gaps : list value) :
  ResumeGeneration.slice_absent a b text (VArr items) = Return gaps ->
  forall g, In g gaps <->
            exists name, g = VStr name /\ named_at items a b name /\
                         text <> "" /\ lacks text name = true.
Proof.
  unfold ResumeGeneration.slice_absent, ResumeGeneration.slice_names.
  destruct (omap ResumeGeneration.name_or_empty (slice a b items)) as [names|e] eqn:En;
    cbn; [|discriminate].
  intros Hf g. rewrite (ofilter_In _ _ _ Hf g), (omap_In _ _ _ En g), absent_from_true.
  split.
  - intros [(skill & Hin & Hname) (name & -> & Hne & Ht & Hl)].
    exists name. repeat split; try assumption.
    apply In_slice in Hin. destruct Hin as (i & Hi & Hnth).
    exists i, skill. repeat split; try assumption; try lia.
    apply name_or_empty_spec in Hname. unfold listed_name, or_else in Hname.
    destruct (truthy (get skill "name")); [symmetry; exact Hname|].
    injection Hname as E. contradiction (Hne E).
  - intros (name & -> & (i & skill & Hi & Hnth & Hget & Hne) & Ht & Hl). split.
    + exists skill. split; [apply In_slice; exists i; split; assumption|].
      apply name_or_empty_named; assumption.
    + exists name. repeat split; assumption.
Qed.

Lemma analysis_of_Return (data : value) (text : string) (score : value)
    (a : ResumeGeneration.Analysis) :
  ResumeGeneration.analysis_of data text score = Return a ->
  exists items,
    data = VArr items /\
    ResumeGeneration.slice_absent 0 2 text data
      = Return (ResumeGeneration.critical (ResumeGeneration.skillGaps a)) /\
    ResumeGeneration.slice_absent 2 5 text data
      = Return (ResumeGeneration.recommended (ResumeGeneration.skillGaps a)) /\
    ResumeGeneration.slice_names 5 7 data
      = Return (ResumeGeneration.nice (ResumeGeneration.skillGaps a)) /\
    ResumeGeneration.atsScore a = score.
Proof.
  unfold ResumeGeneration.analysis_of. intros H.
  destruct data as [| |b|n|s|items|props]; try discriminate H.
  exists items. split; [reflexivity|].
  destruct (ResumeGeneration.slice_names 0 3 (VArr items)); [|discriminate H].
  destruct (ResumeGeneration.slice_absent 3 6 text (VArr items)); [|discriminate H].
  destruct (ResumeGeneration.slice_names 6 9 (VArr items)); [|discriminate H].
  destruct (ResumeGeneration.slice_absent 0 2 text (VArr items)); [|discriminate H].
  destruct (ResumeGeneration.slice_absent 2 5 text (VArr items)); [|discriminate H].
  destruct (ResumeGeneration.slice_names 5 7 (VArr items)); [|discriminate H].
  cbn in H. injection H as <-. cbn. repeat split.
Qed.

Lemma analyzeJobAndProfile_Return (server : backend) (jd : string)
    (profile : option ResumeGeneration.Profile) (w w' : world)
    (a : ResumeGeneration.Analysis) :
  ResumeGeneration.analyzeJobAndProfile server jd profile w = (Return a, w') ->
  exists data score,
    server (length (sent w)) (PostExtractSkills jd) = inr data /\
    ResumeGeneration.analysis_of data
      (ResumeGeneration.convertProfileToText profile) score = Return a.
Proof.
  unfold ResumeGeneration.analyzeJobAndProfile, ResumeGeneration.extractSkills,
    ResumeGeneration.calculateMatchScore, try_catch, bind, axios, lift,
    console_error, throw.
  remember (ResumeGeneration.convertProfileToText profile) as text.
  destruct (server (length (sent w)) (PostExtractSkills jd)) as [e|data];
    cbn; [discriminate|].
  match goal with
  | |- context [server ?n ?r] => destruct (server n r) as [e|answer]
  end; cbn; [discriminate|].
  destruct (get_prop answer "matchScore") as [score|e]; cbn; [|discriminate].
  destruct (ResumeGeneration.analysis_of data text score) as [a0|e] eqn:Ea;
    cbn; [|discriminate].
  intros H. injection H as <- _. exists data, score. split; [reflexivity | exact Ea].
Qed.




(* ------------------------------------------------------------------ *)
(** *** Outcomes that do not depend on the world                        *)
(* ------------------------------------------------------------------ *)

Section Related.
Context {A : Type}.

Lemma orel_eq_refl (o : outcome A) : orel eq o o.
Proof. destruct o; reflexivity. Qed.

Lemma orel_eq (o1 o2 : outcome A) : orel eq o1 o2 -> o1 = o2.
Proof. destruct o1, o2; cbn; intros H; try contradiction; congruence. Qed.

Lemma related_ret (R : A -> A -> Prop) (a b : A) :
  R a b -> related R (ret a) (ret b).
Proof. intros H w1 w2. exact H. Qed.

Lemma related_throw (R : A -> A -> Prop) (e : error) :
  related R (throw e) (throw e).
Proof. intros w1 w2. reflexivity. Qed.

Lemma related_lift (R : A -> A -> Prop) (o1 o2 : outcome A) :
  orel R o1 o2 -> related R (lift o1) (lift o2).
Proof. intros H w1 w2. exact H. Qed.

Lemma related_try_catch (R : A -> A -> Prop) (c1 c2 : M A) (h1 h2 : error -> M A) :
  related R c1 c2 ->
  (forall e, related R (h1 e) (h2 e)) ->
  related R (try_catch c1 h1) (try_catch c2 h2).
Proof.
  intros Hc Hh w1 w2. unfold try_catch.
  specialize (Hc w1 w2).
  destruct (c1 w1) as [[a|e1] w1'], (c2 w2) as [[b|e2] w2']; cbn in *;
    try contradiction; [exact Hc|].
  subst e2. apply Hh.
Qed.
End Related.

Lemma related_bind {A C} (R : A -> A -> Prop) (S : C -> C -> Prop)
    (c1 c2 : M A) (k1 k2 : A -> M C) :
  related R c1 c2 ->
  (forall a b, R a b -> related S (k1 a) (k2 b)) ->
  related S (bind c1 k1) (bind c2 k2).
Proof.
  intros Hc Hk w1 w2. unfold bind.
  specialize (Hc w1 w2).
  destruct (c1 w1) as [[a|e1] w1'], (c2 w2) as [[b|e2] w2']; cbn in *;
    try contradiction; [|exact Hc].
  apply Hk, Hc.
Qed.

Lemma related_axios (server : backend) (r : request) :
  stateless server -> related eq (axios server r) (axios server r).
Proof.
  intros Hs w1 w2. unfold axios; cbn.
  rewrite (Hs (length (sent w1)) (length (sent w2)) r). apply orel_eq_refl.
Qed.

Lemma related_console_error (label : string) (e : error) :
  related eq (console_error label e) (console_error label e).
Proof. intros w1 w2. reflexivity. Qed.

(** [catch (error) { console.error(label, error); throw error; }]. *)
Lemma related_rethrow {A} (R : A -> A -> Prop) (label : string) (e : error) :
  related R (bind (console_error label e) (fun _ => throw e))
            (bind (console_error label e) (fun _ => throw e)).
Proof. intros w1 w2. reflexivity. Qed.

Ltac related_step :=
  lazymatch goal with
  | |- related _ (try_catch _ _) (try_catch _ _) =>
      apply related_try_catch; [|intros ?; apply related_rethrow]
  | |- related _ (bind _ _) (bind _ _) =>
      apply related_bind with (R := eq); [|intros ? ? <-]
  | |- related _ (axios _ _) (axios _ _) => apply related_axios; assumption
  | |- related _ (lift _) (lift _) => apply related_lift, orel_eq_refl
  | |- related _ (ret _) (ret _) => apply related_ret; reflexivity
  | |- related _ (throw _) (throw _) => apply related_throw
  end.

Section Repeatable.
Variable B : builtins.
Variable server : backend.
Hypothesis server_stateless : stateless server.

Lemma related_checkBackendStatus :
  related eq (ResumeGeneration.checkBackendStatus server)
             (ResumeGeneration.checkBackendStatus server).
Proof.
  unfold ResumeGeneration.checkBackendStatus.
  apply related_try_catch.
  - repeat related_step.
  - intros e. apply related_bind with (R := eq).
    + apply related_console_error.
    + intros ? ? _. related_step.
Qed.

Lemma related_extractSkills (jd : string) :
  related eq (ResumeGeneration.extractSkills server jd)
             (ResumeGeneration.extractSkills server jd).
Proof. unfold ResumeGeneration.extractSkills. repeat related_step. Qed.

Lemma related_calculateMatchScore (resume : string) (jobSkills : value) :
  related eq (ResumeGeneration.calculateMatchScore server resume jobSkills)
             (ResumeGeneration.calculateMatchScore server resume jobSkills).
Proof. unfold ResumeGeneration.calculateMatchScore. repeat related_step. Qed.

Lemma related_generatePersonalizedResume (resume jd : string) (skills : value) :
  related eq (ResumeGeneration.generatePersonalizedResume server resume jd skills)
             (ResumeGeneration.generatePersonalizedResume server resume jd skills).
Proof. unfold ResumeGeneration.generatePersonalizedResume. repeat related_step. Qed.

Lemma related_analyzeJobAndProfile (jd : string)
    (profile : option ResumeGeneration.Profile) :
  related eq (ResumeGeneration.analyzeJobAndProfile server jd profile)
             (ResumeGeneration.analyzeJobAndProfile server jd profile).
Proof.
  unfold ResumeGeneration.analyzeJobAndProfile.
  related_step. related_step; [apply related_extractSkills|].
  cbv zeta. related_step; [apply related_calculateMatchScore|].
  related_step.
Qed.

Lemma related_generateResumeContent (jd : string)
    (profile : option ResumeGeneration.Profile)
    (preferences : ResumeGeneration.Preferences) :
  related eq (ResumeGeneration.generateResumeContent B server jd profile preferences)
             (ResumeGeneration.generateResumeContent B server jd profile preferences).
Proof.
  unfold ResumeGeneration.generateResumeContent.
  related_step. related_step; [apply related_extractSkills|].
  cbv zeta. related_step; [apply related_generatePersonalizedResume|].
  related_step.
Qed.

Lemma related_checkAtsCompatibility (resumeContent : ResumeGeneration.ResumeContent) :
  related eq (ResumeGeneration.checkAtsCompatibility resumeContent)
             (ResumeGeneration.checkAtsCompatibility resumeContent).
Proof. unfold ResumeGeneration.checkAtsCompatibility. repeat related_step. Qed.

Lemma related_generateFinalResume (now1 now2 jd : string)
    (profile : option ResumeGeneration.Profile)
    (preferences : ResumeGeneration.Preferences) (template : value) :
  related (same_but_timestamp now1 now2)
    (ResumeGeneration.generateFinalResume B server now1 jd profile preferences template)
    (ResumeGeneration.generateFinalResume B server now2 jd profile preferences template).
Proof.
  unfold ResumeGeneration.generateFinalResume.
  related_step. related_step; [apply related_checkBackendStatus|].
  destruct a; cbn [negb]; [|related_step].
  related_step; [apply related_analyzeJobAndProfile|].
  related_step; [apply related_generateResumeContent|].
  related_step; [apply related_checkAtsCompatibility|].
  related_step; [apply related_extractSkills|].
  cbv zeta. related_step; [apply related_generatePersonalizedResume|].
  related_step; [related_step|].
  apply related_ret. repeat split.
Qed.

End Repeatable.

(** C8 (as amended) - With a backend whose answers depend on the request
    only, two calls of [generateFinalResume] on the same inputs, made at
    the times [now1] and [now2] from any two states of the world, fail
    with the same error or return results that agree on every field but
    the time stamp of the version entry, which is the time of the call;
    the results are equal when the two times are. *)
Theorem generateFinalResume_repeatable_but_for_timestamp :
  forall (B : builtins) (server : backend),
    stateless server ->
    forall (now1 now2 jobDescription : string)
           (candidateProfile : option ResumeGeneration.Profile)
           (preferences : ResumeGeneration.Preferences) (template : value)
           (w1 w2 : world),
      let first :=
        fst (ResumeGeneration.generateFinalResume B server now1 jobDescription
               candidateProfile preferences template w1) in
      let second :=
        fst (ResumeGeneration.generateFinalResume B server now2 jobDescription
               candidateProfile preferences template w2) in
      orel (same_but_timestamp now1 now2) first second /\
      (now1 = now2 -> first = second).
Proof.
  intros B server Hs now1 now2 jd profile prefs template w1 w2 first second.
  pose proof (related_generateFinalResume B server Hs now1 now2 jd profile prefs
                template w1 w2) as H.
  fold first second in H. split; [exact H|].
  intros <-. destruct first as [r1|e1], second as [r2|e2]; cbn in H;
    try contradiction; [|congruence].
  destruct H as (H1 & H2 & H3 & H4 & H5 & H6 & H7).
  destruct r1, r2; cbn in *. congruence.
Qed.

Lemma generateFinalResume_repeatable_but_for_timestamp_witness :
  fst (ResumeGeneration.generateFinalResume Scenario.builtins0 Scenario.healthy
         "2025-01-01T10:00:00.000Z" "Python developer" (Some Scenario.profile)
         Scenario.preferences (VStr "modern") empty_world)
  = fst (ResumeGeneration.generateFinalResume Scenario.builtins0 Scenario.healthy
           "2025-01-01T10:00:00.000Z" "Python developer" (Some Scenario.profile)
           Scenario.preferences (VStr "modern")
           {| sent := [GetModelStatus]; console := [] |}).
Proof.
  apply (generateFinalResume_repeatable_but_for_timestamp Scenario.builtins0
           Scenario.healthy (fun n m r => eq_refl)
           "2025-01-01T10:00:00.000Z" "2025-01-01T10:00:00.000Z" "Python developer"
           (Some Scenario.profile) Scenario.preferences (VStr "modern")
           empty_world {| sent := [GetModelStatus]; console := [] |}).
  reflexivity.
Defined.

(** C8, counterexample - The same inputs and the same backend, five
    seconds apart: both calls return, and the two results differ. *)
Lemma generateFinalResume_differs_between_calls :
  let call now :=
    ResumeGeneration.generateFinalResume Scenario.builtins0 Scenario.healthy now
      "Python developer" (Some Scenario.profile) Scenario.preferences (VStr "modern") in
  let first := call "2025-01-01T10:00:00.000Z" empty_world in
  let second := call "2025-01-01T10:00:05.000Z" (snd first) in
  (exists r1 r2, fst first = Return r1 /\ fst second = Return r2) /\
  fst first <> fst second.
Proof.
  cbv zeta. split.
  - eexists. eexists. split; vm_compute; reflexivity.
  - intros H.
    apply (f_equal (fun o => match o with
                             | Return r =>
                                 map ResumeGeneration.timestamp (ResumeGeneration.versions r)
                             | Throw _ => []
                             end)) in H.
    vm_compute in H. discriminate H.
Qed.

(* ------------------------------------------------------------------ *)
(** *** Failures of the calls made by [generateFinalResume]             *)
(* ------------------------------------------------------------------ *)

Lemma fail_stop_silent {A} (server : backend) (c : M A) :
  (forall w, sent (snd (c w)) = sent w) -> fail_stop server c.
Proof.
  intros H w. exists []. rewrite H, app_nil_r. split; [reflexivity|].
  intros [|k] r e Hk; discriminate Hk.
Qed.

Lemma fail_stop_axios (server : backend) (r : request) :
  fail_stop server (axios server r).
Proof.
  intros w. exists [r]. split; [reflexivity|].
  intros [|k] r' e Hk Hfail; cbn in Hk.
  - injection Hk as <-. rewrite Nat.add_0_r in Hfail. unfold axios; cbn.
    rewrite Hfail. split; reflexivity.
  - destruct k; discriminate Hk.
Qed.

Lemma fail_stop_bind {A C} (server : backend) (c : M A) (k : A -> M C) :
  fail_stop server c -> (forall a, fail_stop server (k a)) ->
  fail_stop server (bind c k).
Proof.
  intros Hc Hk w. unfold bind.
  destruct (Hc w) as (new1 & Hsent1 & Hfail1).
  destruct (c w) as [[a|e1] w1] eqn:Ec; cbn in Hsent1, Hfail1.
  - destruct (Hk a w1) as (new2 & Hsent2 & Hfail2).
    exists (new1 ++ new2). split.
    + rewrite Hsent2, Hsent1, app_assoc. reflexivity.
    + intros i r e Hi Hfail.
      destruct (Nat.lt_ge_cases i (length new1)) as [Hlt|Hge].
      * rewrite nth_error_app1 in Hi by exact Hlt.
        destruct (Hfail1 i r e Hi Hfail) as [Habs _]. discriminate Habs.
      * rewrite nth_error_app2 in Hi by exact Hge.
        destruct (Hfail2 (i - length new1) r e Hi) as [Ho Hlen].
        { rewrite Hsent1, length_app.
          replace (length (sent w) + length new1 + (i - length new1))
            with (length (sent w) + i) by lia.
          exact Hfail. }
        split; [exact Ho|]. rewrite length_app, Hlen. lia.
  - exists new1. split; [exact Hsent1|].
    intros i r e Hi Hfail. destruct (Hfail1 i r e Hi Hfail) as [Ho Hlen].
    injection Ho as ->. split; [reflexivity | exact Hlen].
Qed.

(** [try { c } catch (error) { console.error(label, error); throw error; }]
    has the outcome of [c], sends what [c] sends and logs what [c] throws. *)
Lemma try_rethrow_spec {A} (c : M A) (label : string) (w : world) :
  try_catch c (fun error => bind (console_error label error) (fun _ => throw error)) w
  = match c w with
    | (Return a, w') => (Return a, w')
    | (Throw e, w') =>
        (Throw e, {| sent := sent w'; console := console w' ++ [(label, e)] |})
    end.
Proof. unfold try_catch. destruct (c w) as [[a|e] w']; reflexivity. Qed.

Lemma fail_stop_rethrow {A} (server : backend) (c : M A) (label : string) :
  fail_stop server c ->
  fail_stop server
    (try_catch c (fun error => bind (console_error label error) (fun _ => throw error))).
Proof.
  intros Hc w. destruct (Hc w) as (new & Hsent & Hfail).
  rewrite try_rethrow_spec.
  exists new. destruct (c w) as [[a|e] w']; cbn in *; split; assumption.
Qed.

Ltac fail_stop_step :=
  lazymatch goal with
  | |- fail_stop _ (try_catch _ _) => apply fail_stop_rethrow
  | |- fail_stop _ (bind _ _) => apply fail_stop_bind; [|intros ?]
  | |- fail_stop _ (axios _ _) => apply fail_stop_axios
  | |- fail_stop _ (lift _) => apply fail_stop_silent; reflexivity
  | |- fail_stop _ (ret _) => apply fail_stop_silent; reflexivity
  | |- fail_stop _ (throw _) => apply fail_stop_silent; reflexivity
  end.

Section FailStop.
Variable B : builtins.
Variable server : backend.

Lemma fail_stop_extractSkills (jd : string) :
  fail_stop server (ResumeGeneration.extractSkills server jd).
Proof. unfold ResumeGeneration.extractSkills. repeat fail_stop_step. Qed.

Lemma fail_stop_calculateMatchScore (resume : string) (jobSkills : value) :
  fail_stop server (ResumeGeneration.calculateMatchScore server resume jobSkills).
Proof. unfold ResumeGeneration.calculateMatchScore. repeat fail_stop_step. Qed.

Lemma fail_stop_generatePersonalizedResume (resume jd : string) (skills : value) :
  fail_stop server (ResumeGeneration.generatePersonalizedResume server resume jd skills).
Proof. unfold ResumeGeneration.generatePersonalizedResume. repeat fail_stop_step. Qed.

Lemma fail_stop_analyzeJobAndProfile (jd : string)
    (profile : option ResumeGeneration.Profile) :
  fail_stop server (ResumeGeneration.analyzeJobAndProfile server jd profile).
Proof.
  unfold ResumeGeneration.analyzeJobAndProfile.
  fail_stop_step. fail_stop_step; [apply fail_stop_extractSkills|].
  cbv zeta. fail_stop_step; [apply fail_stop_calculateMatchScore|].
  fail_stop_step.
Qed.

Lemma fail_stop_generateResumeContent (jd : string)
    (profile : option ResumeGeneration.Profile)
    (preferences : ResumeGeneration.Preferences) :
  fail_stop server
    (ResumeGeneration.generateResumeContent B server jd profile preferences).
Proof.
  unfold ResumeGeneration.generateResumeContent.
  fail_stop_step. fail_stop_step; [apply fail_stop_extractSkills|].
  cbv zeta. fail_stop_step; [apply fail_stop_generatePersonalizedResume|].
  fail_stop_step.
Qed.

Lemma fail_stop_checkAtsCompatibility (resumeContent : ResumeGeneration.ResumeContent) :
  fail_stop server (ResumeGeneration.checkAtsCompatibility resumeContent).
Proof. unfold ResumeGeneration.checkAtsCompatibility. repeat fail_stop_step. Qed.

End FailStop.

Lemma probe_spec (server : backend) (w : world) :
  ResumeGeneration.checkBackendStatus server w =
  match server (length (sent w)) GetModelStatus with
  | inr _ => (Return true, after w GetModelStatus)
  | inl err =>
      (Return false,
       {| sent := sent w ++ [GetModelStatus];
          console := console w ++ [("Backend connection error:", err)] |})
  end.
Proof.
  unfold ResumeGeneration.checkBackendStatus, try_catch, bind, axios,
    console_error, ret, after.
  destruct (server (length (sent w)) GetModelStatus); reflexivity.
Qed.

Lemma guarded_spec {A} (server : backend) (rest : M A) (w : world) :
  bind (ResumeGeneration.checkBackendStatus server)
       (fun backendAvailable =>
          if negb backendAvailable then throw backend_unavailable else rest) w
  = match server (length (sent w)) GetModelStatus with
    | inr _ => rest (after w GetModelStatus)
    | inl err =>
        (Throw backend_unavailable,
         {| sent := sent w ++ [GetModelStatus];
            console := console w ++ [("Backend connection error:", err)] |})
    end.
Proof.
  unfold bind. rewrite probe_spec.
  destruct (server (length (sent w)) GetModelStatus); reflexivity.
Qed.

(** C9 (as amended) - [generateFinalResume] returns everything or
    nothing. Whenever a request it sends is rejected by the backend, that
    request is the last one it sends and the call throws: the fixed
    "Backend service is not available" error when the rejected request is
    the status probe, and otherwise the error of the rejected request as
    it is. The error thrown is written to the console; no section that
    was already computed is returned. *)
Theorem generateFinalResume_all_or_nothing :
  forall (B : builtins) (server : backend) (now jobDescription : string)
         (candidateProfile : option ResumeGeneration.Profile)
         (preferences : ResumeGeneration.Preferences) (template : value)
         (w : world),
    let run :=
      ResumeGeneration.generateFinalResume B server now jobDescription
        candidateProfile preferences template w in
    exists new : list request,
      sent (snd run) = sent w ++ new /\
      forall (k : nat) (r : request) (e : error),
        nth_error new k = Some r ->
        server (length (sent w) + k) r = inl e ->
        let thrown := match k with 0 => backend_unavailable | _ => e end in
        fst run = Throw thrown /\
        length new = S k /\
        exists log, console (snd run) = log ++ [("Error generating final resume:", thrown)].
Proof.
  intros B server now jd profile prefs template w run.
  unfold ResumeGeneration.generateFinalResume in run.
  match (eval unfold run in run) with
  | try_catch ?c _ _ => set (inner := c) in *
  end.
  assert (Hinner : exists new : list request,
             sent (snd (inner w)) = sent w ++ new /\
             forall k r e,
               nth_error new k = Some r ->
               server (length (sent w) + k) r = inl e ->
               fst (inner w) = Throw (match k with 0 => backend_unavailable | _ => e end)
               /\ length new = S k).
  { match (eval unfold inner in inner) with
    | bind _ (fun b => if negb b then _ else ?rest) =>
        assert (Hrest : fail_stop server rest);
        [|assert (Hg : inner w = _) by exact (guarded_spec server rest w)]
    end.
    { fail_stop_step; [apply fail_stop_analyzeJobAndProfile|].
      fail_stop_step; [apply fail_stop_generateResumeContent|].
      fail_stop_step; [apply fail_stop_checkAtsCompatibility|].
      fail_stop_step; [apply fail_stop_extractSkills|].
      cbv zeta.
      fail_stop_step; [apply fail_stop_generatePersonalizedResume|].
      fail_stop_step; [fail_stop_step|]. fail_stop_step. }
    rewrite Hg. clear Hg.
    destruct (server (length (sent w)) GetModelStatus) as [e0|ok] eqn:Eprobe.
    - exists [GetModelStatus]. split; [reflexivity|].
      intros [|k] r e Hk Hfail; cbn in Hk.
      + split; reflexivity.
      + destruct k; discriminate Hk.
    - destruct (Hrest (after w GetModelStatus)) as (new & Hsent & Hfail).
      exists (GetModelStatus :: new). split.
      + rewrite Hsent. cbn. rewrite <- app_assoc. reflexivity.
      + intros [|k] r e Hk Hf; cbn in Hk.
        * injection Hk as <-. rewrite Nat.add_0_r in Hf. congruence.
        * destruct (Hfail k r e Hk) as [Ho Hlen].
          { cbn. rewrite length_app. cbn.
            replace (length (sent w) + 1 + k) with (length (sent w) + S k) by lia.
            exact Hf. }
          split; [exact Ho | cbn; rewrite Hlen; reflexivity]. }
  destruct Hinner as (new & Hsent & Hfail).
  exists new. subst run. rewrite try_rethrow_spec.
  destruct (inner w) as [[a|e'] w'] eqn:Ei; cbn in Hsent, Hfail |- *.
  - split; [exact Hsent|]. intros k r e Hk Hf.
    destruct (Hfail k r e Hk Hf) as [Habs _]. discriminate Habs.
  - split; [exact Hsent|]. intros k r e Hk Hf.
    destruct (Hfail k r e Hk Hf) as [Ho Hlen]. injection Ho as ->.
    split; [reflexivity|]. split; [exact Hlen|].
    exists (console w'). reflexivity.
Qed.

Lemma generateFinalResume_all_or_nothing_witness :
  fst (ResumeGeneration.generateFinalResume Scenario.builtins0 Scenario.generator_down
         "2025-01-01T10:00:00.000Z" "Python developer" (Some Scenario.profile)
         Scenario.preferences (VStr "modern") empty_world)
  = Throw (AxiosError "Request failed with status code 500").
Proof.
  destruct (generateFinalResume_all_or_nothing Scenario.builtins0 Scenario.generator_down
              "2025-01-01T10:00:00.000Z" "Python developer" (Some Scenario.profile)
              Scenario.preferences (VStr "modern") empty_world)
    as (new & Hsent & Hfail).
  vm_compute in Hsent. subst new.
  destruct (Hfail 4 _ (AxiosError "Request failed with status code 500")
              eq_refl eq_refl) as [Hthrown _].
  exact Hthrown.
Defined.

(** C9, counterexample - Scoring and extraction succeed and the analysis
    of the profile is computed, then the generator answers with an error:
    the call throws that error and returns no result, not even the
    analysis. *)
Lemma generateFinalResume_discards_the_analysis :
  let run :=
    ResumeGeneration.generateFinalResume Scenario.builtins0 Scenario.generator_down
      "2025-01-01T10:00:00.000Z" "Python developer" (Some Scenario.profile)
      Scenario.preferences (VStr "modern") empty_world in
  (exists analysis,
      fst (ResumeGeneration.analyzeJobAndProfile Scenario.generator_down
             "Python developer" (Some Scenario.profile)
             (after empty_world GetModelStatus)) = Return analysis) /\
  fst run = Throw (AxiosError "Request failed with status code 500") /\
  (forall result, fst run <> Return result).
Proof.
  cbv zeta. split; [|split].
  - eexists. vm_compute. reflexivity.
  - vm_compute. reflexivity.
  - intros result H. vm_compute in H. discriminate H.
Qed.

(* ================================================================== *)
(** ** Further properties of the services                               *)
(* ================================================================== *)

(* ------------------------------------------------------------------ *)
(** *** Strings                                                         *)
(* ------------------------------------------------------------------ *)

Lemma append_nil_r (s : string) : (s ++ "")%string = s.
Proof. induction s as [|c s IH]; cbn; [reflexivity | rewrite IH; reflexivity]. Qed.

Lemma append_assoc (a b c : string) : ((a ++ b) ++ c)%string = (a ++ b ++ c)%string.
Proof. induction a as [|x a IH]; cbn; [reflexivity | rewrite IH; reflexivity]. Qed.

Lemma append_empty (a b : string) : (a ++ b)%string = "" -> a = "" /\ b = "".
Proof. destruct a; cbn; [intros ->; split; reflexivity | discriminate]. Qed.

Lemma toLowerCase_app (a b : string) :
  toLowerCase (a ++ b) = (toLowerCase a ++ toLowerCase b)%string.
Proof. induction a as [|x a IH]; cbn; [reflexivity | rewrite IH; reflexivity]. Qed.

Lemma prefix_app (s t : string) : String.prefix s (s ++ t) = true.
Proof.
  induction s as [|c s IH]; cbn.
  - destruct t; reflexivity.
  - destruct (ascii_dec c c) as [_|Hne]; [exact IH | contradiction Hne; reflexivity].
Qed.

Lemma includes_prefix (s sub : string) : String.prefix sub s = true -> includes s sub = true.
Proof. intros H. destruct s; cbn in *; rewrite H; reflexivity. Qed.

Lemma prefix_split (sub s : string) :
  String.prefix sub s = true -> exists b, s = (sub ++ b)%string.
Proof.
  revert s. induction sub as [|x sub IH]; intros s H.
  - exists s. reflexivity.
  - destruct s as [|y s]; cbn in H; [discriminate H|].
    destruct (ascii_dec x y) as [->|_]; [|discriminate H].
    destruct (IH s H) as (b & ->). exists b. reflexivity.
Qed.

(** A string contains each of its parts. *)
Lemma includes_app (a s b : string) : includes (a ++ s ++ b) s = true.
Proof.
  induction a as [|c a IH].
  - cbn [append]. apply includes_prefix, prefix_app.
  - cbn [append includes]. rewrite IH. apply orb_true_r.
Qed.

Lemma includes_split (s sub : string) :
  includes s sub = true -> exists a b, s = (a ++ sub ++ b)%string.
Proof.
  induction s as [|c s IH]; cbn [includes]; intros H.
  - rewrite orb_false_r in H. destruct (prefix_split _ _ H) as (b & E).
    exists "", b. exact E.
  - apply orb_true_iff in H. destruct H as [H|H].
    + destruct (prefix_split _ _ H) as (b & E). exists "", b. exact E.
    + destruct (IH H) as (a & b & ->). exists (String c a), b. reflexivity.
Qed.

Lemma concat_In (sep s : string) (l : list string) :
  In s l -> exists a b, String.concat sep l = (a ++ s ++ b)%string.
Proof.
  induction l as [|x l IH]; intros Hin; [destruct Hin|].
  destruct Hin as [->|Hin].
  - destruct l as [|y l]; cbn [String.concat].
    + exists "", "". cbn. rewrite append_nil_r. reflexivity.
    + exists "", (sep ++ String.concat sep (y :: l))%string. reflexivity.
  - destruct (IH Hin) as (a & b & E).
    destruct l as [|y l]; [destruct Hin|].
    cbn [String.concat] in *. rewrite E.
    exists (x ++ sep ++ a)%string, b. rewrite !append_assoc. reflexivity.
Qed.

Lemma fold_left_append {A} (g : A -> string) (l : list A) (t : string) :
  fold_left (fun text x => (text ++ g x)%string) l t
  = (t ++ String.concat "" (map g l))%string.
Proof.
  revert t. induction l as [|x l IH]; intros t; cbn [fold_left map].
  - cbn. rewrite append_nil_r. reflexivity.
  - rewrite IH. destruct l as [|y l]; cbn [map String.concat].
    + cbn. rewrite !append_nil_r. reflexivity.
    + cbn [append]. rewrite append_assoc. reflexivity.
Qed.

(* ------------------------------------------------------------------ *)
(** *** The text of a profile and the gaps computed from it             *)
(* ------------------------------------------------------------------ *)

Lemma fold_left_extends {A} (f : string -> A -> string) (l : list A) (t : string) :
  (forall t x, exists m, f t x = (t ++ m)%string) ->
  exists m, fold_left f l t = (t ++ m)%string.
Proof.
  intros Hf. revert t. induction l as [|x l IH]; intros t; cbn [fold_left].
  - exists "". rewrite append_nil_r. reflexivity.
  - destruct (Hf t x) as (m1 & ->). destruct (IH (t ++ m1)%string) as (m2 & ->).
    exists (m1 ++ m2)%string. apply append_assoc.
Qed.

Lemma optional_fold_extends {A} (f : string -> A -> string) (a : option (list A))
    (t : string) :
  (forall t x, exists m, f t x = (t ++ m)%string) ->
  exists m,
    (if ResumeGeneration.has_items a
     then fold_left f (ResumeGeneration.items_of a) t else t) = (t ++ m)%string.
Proof.
  intros Hf. destruct (ResumeGeneration.has_items a).
  - apply fold_left_extends, Hf.
  - exists "". rewrite append_nil_r. reflexivity.
Qed.

Lemma optional_join (a : option (list string)) (sep t : string) :
  (if ResumeGeneration.has_items a
   then (t ++ String.concat sep (ResumeGeneration.items_of a))%string else t)
  = (t ++ String.concat sep (ResumeGeneration.items_of a))%string.
Proof.
  destruct a as [[|x l]|]; cbn [ResumeGeneration.has_items ResumeGeneration.items_of];
    try reflexivity; cbn; rewrite append_nil_r; reflexivity.
Qed.

(** The text of a profile that has personal information starts with the
    name line and ends with the heading SKILLS followed by the skills
    joined with commas. *)
Lemma convertProfileToText_shape (p : ResumeGeneration.Profile)
    (info : ResumeGeneration.PersonalInfo.t) :
  ResumeGeneration.personalInfo p = Some info ->
  exists mid : string,
    ResumeGeneration.convertProfileToText (Some p)
    = (ResumeGeneration.or_empty (ResumeGeneration.PersonalInfo.name info)
       ++ ResumeGeneration.nl ++ mid ++ "SKILLS" ++ ResumeGeneration.nl
       ++ String.concat ", " (ResumeGeneration.items_of (ResumeGeneration.skills p)))%string.
Proof.
  intros Hinfo. unfold ResumeGeneration.convertProfileToText. rewrite Hinfo. cbv zeta.
  rewrite optional_join.
  match goal with
  | |- context [if ResumeGeneration.has_items (ResumeGeneration.experience p)
                then fold_left ?f _ ?t else _] =>
      destruct (optional_fold_extends f (ResumeGeneration.experience p) t) as (m1 & E1)
  end.
  { intros t x. eexists. rewrite !append_assoc. reflexivity. }
  rewrite E1. clear E1.
  match goal with
  | |- context [if ResumeGeneration.has_items (ResumeGeneration.education p)
                then fold_left ?f _ ?t else _] =>
      destruct (optional_fold_extends f (ResumeGeneration.education p) t) as (m2 & E2)
  end.
  { intros t x. eexists. reflexivity. }
  rewrite E2. clear E2.
  exists (ResumeGeneration.or_empty (ResumeGeneration.PersonalInfo.email info) ++ " | "
          ++ ResumeGeneration.or_empty (ResumeGeneration.PersonalInfo.phone info) ++ " | "
          ++ ResumeGeneration.or_empty (ResumeGeneration.PersonalInfo.location info)
          ++ ResumeGeneration.nl ++ ResumeGeneration.nl
          ++ "EXPERIENCE" ++ ResumeGeneration.nl ++ m1
          ++ "EDUCATION" ++ ResumeGeneration.nl ++ m2)%string.
  rewrite !append_assoc. reflexivity.
Qed.

Lemma profile_text_empty (profile : option ResumeGeneration.Profile) :
  ResumeGeneration.convertProfileToText profile = "" <->
  (profile = None \/
   exists p, profile = Some p /\ ResumeGeneration.personalInfo p = None).
Proof.
  destruct profile as [p|]; split.
  - intros H. right. exists p. split; [reflexivity|].
    destruct (ResumeGeneration.personalInfo p) as [info|] eqn:Hinfo; [|reflexivity].
    destruct (convertProfileToText_shape p info Hinfo) as (mid & E).
    rewrite E in H. apply append_empty in H. destruct H as [_ H].
    discriminate H.
  - intros [H|(q & H & Hnone)]; [discriminate H|].
    injection H as <-. unfold ResumeGeneration.convertProfileToText.
    rewrite Hnone. reflexivity.
  - intros _. left. reflexivity.
  - reflexivity.
Qed.

(** X1 - [convertProfileToText] gives the empty text exactly when the
    profile is missing or has no personal information; a profile with
    personal information never has an empty text, even when every field
    is blank. *)
Theorem convertProfileToText_empty_iff :
  forall profile : option ResumeGeneration.Profile,
    ResumeGeneration.convertProfileToText profile = "" <->
    (profile = None \/
     exists p, profile = Some p /\ ResumeGeneration.personalInfo p = None).
Proof. exact profile_text_empty. Qed.

Lemma analysis_of_missing (data : value) (text : string) (score : value)
    (a : ResumeGeneration.Analysis) :
  ResumeGeneration.analysis_of data text score = Return a ->
  ResumeGeneration.slice_names 0 3 data
    = Return (ResumeGeneration.matched (ResumeGeneration.keywordMatch a)) /\
  ResumeGeneration.slice_absent 3 6 text data
    = Return (ResumeGeneration.missing (ResumeGeneration.keywordMatch a)) /\
  ResumeGeneration.slice_names 6 9 data
    = Return (ResumeGeneration.partial (ResumeGeneration.keywordMatch a)).
Proof.
  unfold ResumeGeneration.analysis_of. intros H.
  destruct (ResumeGeneration.slice_names 0 3 data); [|discriminate H].
  destruct (ResumeGeneration.slice_absent 3 6 text data); [|discriminate H].
  destruct (ResumeGeneration.slice_names 6 9 data); [|discriminate H].
  destruct (ResumeGeneration.slice_absent 0 2 text data); [|discriminate H].
  destruct (ResumeGeneration.slice_absent 2 5 text data); [|discriminate H].
  destruct (ResumeGeneration.slice_names 5 7 data); [|discriminate H].
  cbn in H. injection H as <-. cbn. repeat split.
Qed.

Lemma no_member_nil {A} (l : list A) : (forall x, ~ In x l) -> l = [].
Proof. destruct l as [|x l]; [reflexivity|]. intros H. destruct (H x). left. reflexivity. Qed.

(** X2 - For a candidate without a profile, or whose profile has no
    personal information, an analysis that is returned reports no
    critical gap, no recommended gap and no missing keyword, whatever
    skills were extracted from the job description. *)
Theorem no_profile_no_gaps :
  forall (server : backend) (jobDescription : string)
         (candidateProfile : option ResumeGeneration.Profile)
         (w w' : world) (analysis : ResumeGeneration.Analysis),
    ResumeGeneration.convertProfileToText candidateProfile = "" ->
    ResumeGeneration.analyzeJobAndProfile server jobDescription candidateProfile w
      = (Return analysis, w') ->
    ResumeGeneration.critical (ResumeGeneration.skillGaps analysis) = [] /\
    ResumeGeneration.recommended (ResumeGeneration.skillGaps analysis) = [] /\
    ResumeGeneration.missing (ResumeGeneration.keywordMatch analysis) = [].
Proof.
  intros server jd profile w w' a Htext Hrun.
  destruct (analyzeJobAndProfile_Return server jd profile w w' a Hrun)
    as (data & score & _ & Ha).
  rewrite Htext in Ha.
  destruct (analysis_of_Return _ _ _ _ Ha) as (items & -> & Hc & Hr & _ & _).
  destruct (analysis_of_missing _ _ _ _ Ha) as (_ & Hm & _).
  repeat split; apply no_member_nil; intros g Hin.
  - apply (slice_absent_spec 0 2 "" items _ Hc) in Hin.
    destruct Hin as (name & _ & _ & Hne & _). apply Hne. reflexivity.
  - apply (slice_absent_spec 2 5 "" items _ Hr) in Hin.
    destruct Hin as (name & _ & _ & Hne & _). apply Hne. reflexivity.
  - apply (slice_absent_spec 3 6 "" items _ Hm) in Hin.
    destruct Hin as (name & _ & _ & Hne & _). apply Hne. reflexivity.
Qed.

Lemma no_profile_no_gaps_witness :
  exists (analysis : ResumeGeneration.Analysis) (w' : world),
    ResumeGeneration.analyzeJobAndProfile Scenario.healthy "Python developer"
      None empty_world = (Return analysis, w') /\
    ResumeGeneration.critical (ResumeGeneration.skillGaps analysis) = [] /\
    ResumeGeneration.recommended (ResumeGeneration.skillGaps analysis) = [] /\
    ResumeGeneration.missing (ResumeGeneration.keywordMatch analysis) = [].
Proof.
  destruct (ResumeGeneration.analyzeJobAndProfile Scenario.healthy "Python developer"
              None empty_world) as [[analysis|e] w'] eqn:E.
  - exists analysis, w'. split; [reflexivity|].
    exact (no_profile_no_gaps Scenario.healthy "Python developer" None
             empty_world w' analysis eq_refl E).
  - vm_compute in E. discriminate E.
Defined.

(** X3 - A skill that the candidate lists in the profile is never
    reported as a critical gap, a recommended gap or a missing keyword:
    the profile text contains every listed skill, and the comparison is
    made in lower case. *)
Theorem listed_skills_are_never_gaps :
  forall (server : backend) (jobDescription : string)
         (p : ResumeGeneration.Profile) (info : ResumeGeneration.PersonalInfo.t)
         (w w' : world) (analysis : ResumeGeneration.Analysis) (skill : string),
    ResumeGeneration.personalInfo p = Some info ->
    In skill (ResumeGeneration.items_of (ResumeGeneration.skills p)) ->
    ResumeGeneration.analyzeJobAndProfile server jobDescription (Some p) w
      = (Return analysis, w') ->
    lacks (ResumeGeneration.convertProfileToText (Some p)) skill = false /\
    ~ In (VStr skill) (ResumeGeneration.critical (ResumeGeneration.skillGaps analysis)) /\
    ~ In (VStr skill) (ResumeGeneration.recommended (ResumeGeneration.skillGaps analysis)) /\
    ~ In (VStr skill) (ResumeGeneration.missing (ResumeGeneration.keywordMatch analysis)).
Proof.
  intros server jd p info w w' a skill Hinfo Hin Hrun.
  assert (Hl : lacks (ResumeGeneration.convertProfileToText (Some p)) skill = false).
  { destruct (convertProfileToText_shape p info Hinfo) as (mid & ->).
    destruct (concat_In ", " skill _ Hin) as (x & y & ->).
    unfold lacks. rewrite !toLowerCase_app.
    rewrite <- !append_assoc.
    rewrite append_assoc.
    rewrite includes_app. reflexivity. }
  split; [exact Hl|].
  destruct (analyzeJobAndProfile_Return server jd (Some p) w w' a Hrun)
    as (data & score & _ & Ha).
  destruct (analysis_of_Return _ _ _ _ Ha) as (items & -> & Hc & Hr & _ & _).
  destruct (analysis_of_missing _ _ _ _ Ha) as (_ & Hm & _).
  repeat split; intros Hg.
  - apply (slice_absent_spec 0 2 _ items _ Hc) in Hg.
    destruct Hg as (name & E & _ & _ & Hlack). injection E as <-. congruence.
  - apply (slice_absent_spec 2 5 _ items _ Hr) in Hg.
    destruct Hg as (name & E & _ & _ & Hlack). injection E as <-. congruence.
  - apply (slice_absent_spec 3 6 _ items _ Hm) in Hg.
    destruct Hg as (name & E & _ & _ & Hlack). injection E as <-. congruence.
Qed.

Lemma listed_skills_are_never_gaps_witness :
  exists (analysis : ResumeGeneration.Analysis) (w' : world),
    ResumeGeneration.analyzeJobAndProfile Scenario.healthy "Python developer"
      (Some Scenario.profile) empty_world = (Return analysis, w') /\
    ~ In (VStr "SQL") (ResumeGeneration.critical (ResumeGeneration.skillGaps analysis)).
Proof.
  destruct (ResumeGeneration.analyzeJobAndProfile Scenario.healthy "Python developer"
              (Some Scenario.profile) empty_world) as [[analysis|e] w'] eqn:E.
  - exists analysis, w'. split; [reflexivity|].
    apply (listed_skills_are_never_gaps Scenario.healthy "Python developer"
             Scenario.profile _ empty_world w' analysis "SQL" eq_refl).
    + right. left. reflexivity.
    + exact E.
  - vm_compute in E. discriminate E.
Defined.

(* ------------------------------------------------------------------ *)
(** *** Runs that return                                                *)
(* ------------------------------------------------------------------ *)

Lemma bind_Return {A C} (c : M A) (k : A -> M C) (w w' : world) (b : C) :
  bind c k w = (Return b, w') ->
  exists a w1, c w = (Return a, w1) /\ k a w1 = (Return b, w').
Proof.
  unfold bind. destruct (c w) as [[a|e] w1]; intros H; [|discriminate H].
  exists a, w1. split; [reflexivity | exact H].
Qed.

Lemma try_rethrow_Return {A} (c : M A) (label : string) (w w' : world) (a : A) :
  try_catch c (fun error => bind (console_error label error) (fun _ => throw error)) w
    = (Return a, w') ->
  c w = (Return a, w').
Proof.
  rewrite try_rethrow_spec. destruct (c w) as [[x|e] w1]; intros H;
    [exact H | discriminate H].
Qed.

Lemma axios_Return (server : backend) (r : request) (w w' : world) (v : value) :
  axios server r w = (Return v, w') ->
  server (length (sent w)) r = inr v /\ w' = after w r.
Proof.
  unfold axios, after. destruct (server (length (sent w)) r) as [e|d]; intros H;
    [discriminate H|].
  injection H as -> <-. split; reflexivity.
Qed.

Lemma lift_Return {A} (o : outcome A) (w w' : world) (a : A) :
  lift o w = (Return a, w') -> o = Return a /\ w' = w.
Proof. unfold lift. intros H. injection H as -> <-. split; reflexivity. Qed.

Section Returns.
Variable B : builtins.
Variable server : backend.

Lemma extractSkills_Return (jd : string) (w w' : world) (v : value) :
  ResumeGeneration.extractSkills server jd w = (Return v, w') ->
  server (length (sent w)) (PostExtractSkills jd) = inr v /\
  w' = after w (PostExtractSkills jd).
Proof.
  unfold ResumeGeneration.extractSkills. intros H.
  apply try_rethrow_Return in H. apply axios_Return in H. exact H.
Qed.

Lemma calculateMatchScore_Return (resume : string) (skills : value)
    (w w' : world) (v : value) :
  ResumeGeneration.calculateMatchScore server resume skills w = (Return v, w') ->
  exists data,
    server (length (sent w)) (PostMatchResume resume skills) = inr data /\
    get_prop data "matchScore" = Return v /\
    w' = after w (PostMatchResume resume skills).
Proof.
  unfold ResumeGeneration.calculateMatchScore. intros H.
  apply try_rethrow_Return in H. apply bind_Return in H.
  destruct H as (data & w1 & Hax & Hl).
  apply axios_Return in Hax. destruct Hax as [Hs ->].
  apply lift_Return in Hl. destruct Hl as [Hg ->].
  exists data. repeat split; assumption.
Qed.

Lemma generatePersonalizedResume_Return (resume jd : string) (skills : value)
    (w w' : world) (v : value) :
  ResumeGeneration.generatePersonalizedResume server resume jd skills w = (Return v, w') ->
  server (length (sent w)) (PostGenerateResume resume jd skills) = inr v /\
  w' = after w (PostGenerateResume resume jd skills).
Proof.
  unfold ResumeGeneration.generatePersonalizedResume. intros H.
  apply try_rethrow_Return in H. apply axios_Return in H. exact H.
Qed.

Lemma analyzeJobAndProfile_run (jd : string) (profile : option ResumeGeneration.Profile)
    (w w' : world) (a : ResumeGeneration.Analysis) :
  ResumeGeneration.analyzeJobAndProfile server jd profile w = (Return a, w') ->
  exists skills score,
    let text := ResumeGeneration.convertProfileToText profile in
    ResumeGeneration.analysis_of skills text score = Return a /\
    w' = after (after w (PostExtractSkills jd)) (PostMatchResume text skills).
Proof.
  unfold ResumeGeneration.analyzeJobAndProfile. intros H.
  apply try_rethrow_Return in H. apply bind_Return in H.
  destruct H as (skills & w1 & He & H).
  apply extractSkills_Return in He. destruct He as [_ ->].
  cbv zeta in H. apply bind_Return in H. destruct H as (score & w2 & Hm & H).
  apply calculateMatchScore_Return in Hm. destruct Hm as (data & _ & _ & ->).
  apply lift_Return in H. destruct H as [Ha ->].
  exists skills, score. split; [exact Ha | reflexivity].
Qed.

Lemma generateResumeContent_run (jd : string)
    (profile : option ResumeGeneration.Profile)
    (preferences : ResumeGeneration.Preferences)
    (w w' : world) (c : ResumeGeneration.ResumeContent) :
  ResumeGeneration.generateResumeContent B server jd profile preferences w
    = (Return c, w') ->
  exists skills draft,
    let text := ResumeGeneration.convertProfileToText profile in
    server (S (length (sent w))) (PostGenerateResume text jd skills) = inr draft /\
    ResumeGeneration.content_of B draft preferences = Return c /\
    w' = after (after w (PostExtractSkills jd)) (PostGenerateResume text jd skills).
Proof.
  unfold ResumeGeneration.generateResumeContent. intros H.
  apply try_rethrow_Return in H. apply bind_Return in H.
  destruct H as (skills & w1 & He & H).
  apply extractSkills_Return in He. destruct He as [_ ->].
  cbv zeta in H. apply bind_Return in H. destruct H as (draft & w2 & Hg & H).
  apply generatePersonalizedResume_Return in Hg. destruct Hg as [Hs ->].
  apply lift_Return in H. destruct H as [Hc ->].
  exists skills, draft. cbv zeta. repeat split; try assumption.
  cbn in Hs. rewrite length_app in Hs. cbn in Hs. rewrite Nat.add_1_r in Hs. exact Hs.
Qed.

(** What a returned final resume is made of, and the world it leaves. *)
Lemma generateFinalResume_run (now jd : string)
    (profile : option ResumeGeneration.Profile)
    (preferences : ResumeGeneration.Preferences) (template : value)
    (w w' : world) (r : ResumeGeneration.FinalResume) :
  ResumeGeneration.generateFinalResume B server now jd profile preferences template w
    = (Return r, w') ->
  exists skills1 score skills2 draft2 skills3 draft3,
    let text := ResumeGeneration.convertProfileToText profile in
    ResumeGeneration.analysis_of skills1 text score
      = Return (ResumeGeneration.final_analysis r) /\
    ResumeGeneration.content_of B draft2 preferences
      = Return (ResumeGeneration.final_content r) /\
    ResumeGeneration.checkAtsCompatibility (ResumeGeneration.final_content r) w'
      = (Return (ResumeGeneration.atsCheck r), w') /\
    ResumeGeneration.final_generatedResume profile draft3
      = Return (ResumeGeneration.generatedResume r) /\
    ResumeGeneration.final_template r = template /\
    ResumeGeneration.versions r = [initial_version now] /\
    sent w' = sent w ++ [ GetModelStatus;
                          PostExtractSkills jd;
                          PostMatchResume text skills1;
                          PostExtractSkills jd;
                          PostGenerateResume text jd skills2;
                          PostExtractSkills jd;
                          PostGenerateResume text jd skills3 ] /\
    console w' = console w.
Proof.
  unfold ResumeGeneration.generateFinalResume. intros H.
  apply try_rethrow_Return in H. apply bind_Return in H.
  destruct H as (ok & w1 & Hp & H).
  rewrite probe_spec in Hp.
  destruct (server (length (sent w)) GetModelStatus) as [e|d];
    injection Hp as <- <-; [discriminate H|].
  cbn [negb] in H.
  apply bind_Return in H. destruct H as (a & w2 & Ha & H).
  apply analyzeJobAndProfile_run in Ha. destruct Ha as (skills1 & score & Ha & ->).
  apply bind_Return in H. destruct H as (c & w3 & Hc & H).
  apply generateResumeContent_run in Hc.
  destruct Hc as (skills2 & draft2 & _ & Hc & ->).
  apply bind_Return in H. destruct H as (ats & w4 & Hats & H).
  assert (Hw4 : w4 = after (after (after (after (after w GetModelStatus)
                   (PostExtractSkills jd))
                   (PostMatchResume (ResumeGeneration.convertProfileToText profile) skills1))
                   (PostExtractSkills jd))
                   (PostGenerateResume (ResumeGeneration.convertProfileToText profile)
                      jd skills2)).
  { unfold ResumeGeneration.checkAtsCompatibility in Hats.
    apply try_rethrow_Return in Hats. injection Hats as _ <-. reflexivity. }
  assert (Hats' : forall w0, ResumeGeneration.checkAtsCompatibility c w0 = (Return ats, w0)).
  { intros w0. unfold ResumeGeneration.checkAtsCompatibility in Hats |- *.
    apply try_rethrow_Return in Hats. injection Hats as <- _.
    rewrite try_rethrow_spec. reflexivity. }
  subst w4.
  apply bind_Return in H. destruct H as (skills3 & w5 & He & H).
  apply extractSkills_Return in He. destruct He as [_ ->].
  cbv zeta in H. apply bind_Return in H. destruct H as (draft3 & w6 & Hg & H).
  apply generatePersonalizedResume_Return in Hg. destruct Hg as [_ ->].
  apply bind_Return in H. destruct H as (resume_ & w7 & Hf & H).
  apply lift_Return in Hf. destruct Hf as [Hf ->].
  injection H as <- <-.
  exists skills1, score, skills2, draft2, skills3, draft3. cbv zeta.
  cbn [ResumeGeneration.final_analysis ResumeGeneration.final_content
       ResumeGeneration.atsCheck ResumeGeneration.generatedResume
       ResumeGeneration.final_template ResumeGeneration.versions].
  repeat split; try assumption.
  - apply Hats'.
  - unfold after. cbn [sent]. rewrite <- !app_assoc. reflexivity.
Qed.

End Returns.

(* ------------------------------------------------------------------ *)
(** *** What a successful [generateFinalResume] did                     *)
(* ------------------------------------------------------------------ *)

(** X4 - A call of [generateFinalResume] that returns has sent exactly
    seven requests: the status probe, then extraction and scoring for the
    analysis, extraction and generation for the content, and extraction
    and generation once more for the resume itself; the job description
    is extracted three times and the resume generated twice. Nothing is
    written to the console. *)
Theorem generateFinalResume_requests_on_success :
  forall (B : builtins) (server : backend) (now jobDescription : string)
         (candidateProfile : option ResumeGeneration.Profile)
         (preferences : ResumeGeneration.Preferences) (template : value)
         (w w' : world) (result : ResumeGeneration.FinalResume),
    ResumeGeneration.generateFinalResume B server now jobDescription
      candidateProfile preferences template w = (Return result, w') ->
    exists skills1 skills2 skills3 : value,
      let text := ResumeGeneration.convertProfileToText candidateProfile in
      sent w' = sent w ++ [ GetModelStatus;
                            PostExtractSkills jobDescription;
                            PostMatchResume text skills1;
                            PostExtractSkills jobDescription;
                            PostGenerateResume text jobDescription skills2;
                            PostExtractSkills jobDescription;
                            PostGenerateResume text jobDescription skills3 ] /\
      console w' = console w.
Proof.
  intros B server now jd profile prefs template w w' r Hrun.
  destruct (generateFinalResume_run B server now jd profile prefs template w w' r Hrun)
    as (skills1 & score & skills2 & draft2 & skills3 & draft3 & H).
  cbv zeta in H. destruct H as (_ & _ & _ & _ & _ & _ & Hsent & Hcons).
  exists skills1, skills2, skills3. split; assumption.
Qed.

Lemma generateFinalResume_requests_on_success_witness :
  exists (result : ResumeGeneration.FinalResume) (w' : world),
    ResumeGeneration.generateFinalResume Scenario.builtins0 Scenario.healthy
      "2025-01-01T10:00:00.000Z" "Python developer" (Some Scenario.profile)
      Scenario.preferences (VStr "modern") empty_world = (Return result, w') /\
    length (sent w') = 7 /\ console w' = [].
Proof.
  destruct (ResumeGeneration.generateFinalResume Scenario.builtins0 Scenario.healthy
              "2025-01-01T10:00:00.000Z" "Python developer" (Some Scenario.profile)
              Scenario.preferences (VStr "modern") empty_world)
    as [[result|e] w'] eqn:E.
  - exists result, w'. split; [reflexivity|].
    destruct (generateFinalResume_requests_on_success _ _ _ _ _ _ _ _ _ _ E)
      as (s1 & s2 & s3 & Hsent & Hcons).
    rewrite Hsent, Hcons. split; reflexivity.
  - vm_compute in E. discriminate E.
Defined.

Lemma truthy_or_else (a b : value) : truthy b = true -> truthy (or_else a b) = true.
Proof. unfold or_else. destruct (truthy a) eqn:E; intros H; assumption. Qed.

Lemma or_else_truthy (a b : value) : truthy a = true -> or_else a b = a.
Proof. unfold or_else. intros ->. reflexivity. Qed.

Lemma content_of_ats (B : builtins) (draft : value)
    (preferences : ResumeGeneration.Preferences) (c : ResumeGeneration.ResumeContent) :
  ResumeGeneration.content_of B draft preferences = Return c ->
  ResumeGeneration.atsCompatibility c = or_else (get draft "matchScore") (VNum 85%float).
Proof.
  unfold ResumeGeneration.content_of. intros H.
  destruct (get_prop draft "experience"); cbn [obind] in H; [|discriminate H].
  destruct (get_index (get draft "education") 0); cbn [obind] in H; [|discriminate H].
  destruct (get_index (get draft "education") 1); cbn [obind] in H; [|discriminate H].
  injection H as <-. reflexivity.
Qed.

(** X5 - In a final resume that is returned, the ATS compatibility of the
    content is never zero, empty or missing: it is the match score of the
    generated draft when that is truthy and 85 otherwise (so a match score
    of 0 is shown as 85); and the score of the ATS check is that same
    value. *)
Theorem ats_score_is_never_falsy :
  forall (B : builtins) (server : backend) (now jobDescription : string)
         (candidateProfile : option ResumeGeneration.Profile)
         (preferences : ResumeGeneration.Preferences) (template : value)
         (w w' : world) (result : ResumeGeneration.FinalResume),
    ResumeGeneration.generateFinalResume B server now jobDescription
      candidateProfile preferences template w = (Return result, w') ->
    let ats := ResumeGeneration.atsCompatibility (ResumeGeneration.final_content result) in
    truthy ats = true /\
    get (ResumeGeneration.atsCheck result) "score" = ats /\
    exists draft : value,
      ats = (if truthy (get draft "matchScore")
             then get draft "matchScore" else VNum 85%float) /\
      exists (n : nat) (skills : value),
        server n (PostGenerateResume
                    (ResumeGeneration.convertProfileToText candidateProfile)
                    jobDescription skills) = inr draft.
Proof.
  intros B server now jd profile prefs template w w' r Hrun ats.
  unfold ResumeGeneration.generateFinalResume in Hrun.
  apply try_rethrow_Return in Hrun. apply bind_Return in Hrun.
  destruct Hrun as (ok & w1 & Hp & H).
  destruct ok; cbn [negb] in H; [|discriminate H].
  apply bind_Return in H. destruct H as (a & w2 & _ & H).
  apply bind_Return in H. destruct H as (c & w3 & Hc & H).
  pose proof (generateResumeContent_run B server jd profile prefs w2 w3 c Hc)
    as (skills & draft & Hs & Hcontent & _).
  apply bind_Return in H. destruct H as (atsv & w4 & Hats & H).
  unfold ResumeGeneration.checkAtsCompatibility in Hats.
  apply try_rethrow_Return in Hats. injection Hats as <- <-.
  apply bind_Return in H. destruct H as (skills3 & w5 & _ & H).
  cbv zeta in H. apply bind_Return in H. destruct H as (draft3 & w6 & _ & H).
  apply bind_Return in H. destruct H as (resume_ & w7 & _ & H).
  injection H as <- _. subst ats.
  cbn [ResumeGeneration.final_content ResumeGeneration.atsCheck].
  pose proof (content_of_ats B draft prefs c Hcontent) as E.
  assert (Ht : truthy (ResumeGeneration.atsCompatibility c) = true).
  { rewrite E. apply truthy_or_else. reflexivity. }
  split; [exact Ht|]. split.
  - cbn. apply or_else_truthy, Ht.
  - exists draft. split; [exact E|]. exists (S (length (sent w2))), skills. exact Hs.
Qed.

Lemma ats_score_is_never_falsy_witness :
  exists (result : ResumeGeneration.FinalResume) (w' : world),
    ResumeGeneration.generateFinalResume Scenario.builtins0 Scenario.healthy
      "2025-01-01T10:00:00.000Z" "Python developer" (Some Scenario.profile)
      Scenario.preferences (VStr "modern") empty_world = (Return result, w') /\
    truthy (ResumeGeneration.atsCompatibility (ResumeGeneration.final_content result))
      = true.
Proof.
  destruct (ResumeGeneration.generateFinalResume Scenario.builtins0 Scenario.healthy
              "2025-01-01T10:00:00.000Z" "Python developer" (Some Scenario.profile)
              Scenario.preferences (VStr "modern") empty_world)
    as [[result|e] w'] eqn:E.
  - exists result, w'. split; [reflexivity|].
    exact (proj1 (ats_score_is_never_falsy _ _ _ _ _ _ _ _ _ _ E)).
  - vm_compute in E. discriminate E.
Defined.

(** X6 - [generateFinalResume] never returns for a candidate without a
    profile or whose profile has no personal information: building the
    contact block reads [candidateProfile.personalInfo.name], although the
    text of the profile sent to the backend is computed without error. *)
Theorem generateFinalResume_needs_personal_info :
  forall (B : builtins) (server : backend) (now jobDescription : string)
         (candidateProfile : option ResumeGeneration.Profile)
         (preferences : ResumeGeneration.Preferences) (template : value)
         (w : world),
    ResumeGeneration.convertProfileToText candidateProfile = "" ->
    forall result : ResumeGeneration.FinalResume,
      fst (ResumeGeneration.generateFinalResume B server now jobDescription
             candidateProfile preferences template w) <> Return result.
Proof.
  intros B server now jd profile prefs template w Htext r Hrun.
  destruct (ResumeGeneration.generateFinalResume B server now jd profile prefs
              template w) as [o w'] eqn:E.
  cbn in Hrun. subst o.
  destruct (generateFinalResume_run B server now jd profile prefs template w w' r E)
    as (skills1 & score & skills2 & draft2 & skills3 & draft3 & H).
  cbv zeta in H. destruct H as (_ & _ & _ & Hf & _).
  apply profile_text_empty in Htext.
  destruct Htext as [->|(p & -> & Hnone)]; cbn in Hf; [discriminate Hf|].
  rewrite Hnone in Hf. discriminate Hf.
Qed.

Lemma generateFinalResume_needs_personal_info_witness :
  exists e : error,
    fst (ResumeGeneration.generateFinalResume Scenario.builtins0 Scenario.healthy
           "2025-01-01T10:00:00.000Z" "Python developer" None
           Scenario.preferences (VStr "modern") empty_world) = Throw e.
Proof.
  destruct (fst (ResumeGeneration.generateFinalResume Scenario.builtins0
                   Scenario.healthy "2025-01-01T10:00:00.000Z" "Python developer" None
                   Scenario.preferences (VStr "modern") empty_world))
    as [result|e] eqn:E.
  - exfalso.
    exact (generateFinalResume_needs_personal_info Scenario.builtins0 Scenario.healthy
             "2025-01-01T10:00:00.000Z" "Python developer" None
             Scenario.preferences (VStr "modern") empty_world eq_refl result E).
  - exists e. reflexivity.
Defined.

(* ------------------------------------------------------------------ *)
(** *** Failures inside the analysis and the content                    *)
(* ------------------------------------------------------------------ *)

Lemma length_after (w : world) (r : request) :
  length (sent (after w r)) = S (length (sent w)).
Proof. unfold after. cbn. rewrite length_app. cbn. apply Nat.add_1_r. Qed.

(** X7 - When the backend is up but rejects the first extraction request,
    [generateFinalResume] stops after two requests and throws the error of
    the rejected request, and that one error is written to the console
    three times: by [extractSkills], by [analyzeJobAndProfile] and by
    [generateFinalResume]. *)
Theorem extraction_failure_is_logged_three_times :
  forall (B : builtins) (server : backend) (now jobDescription : string)
         (candidateProfile : option ResumeGeneration.Profile)
         (preferences : ResumeGeneration.Preferences) (template : value)
         (w : world) (ok : value) (err : error),
    server (length (sent w)) GetModelStatus = inr ok ->
    server (S (length (sent w))) (PostExtractSkills jobDescription) = inl err ->
    ResumeGeneration.generateFinalResume B server now jobDescription
      candidateProfile preferences template w
    = (Throw err,
       {| sent := sent w ++ [GetModelStatus; PostExtractSkills jobDescription];
          console := console w ++ [ ("Error extracting skills:", err);
                                    ("Error analyzing job and profile:", err);
                                    ("Error generating final resume:", err) ] |}).
Proof.
  intros B server now jd profile prefs template w ok err Hprobe Hextract.
  unfold ResumeGeneration.generateFinalResume. rewrite try_rethrow_spec.
  match goal with
  | |- context [bind _ (fun b => if negb b then _ else ?rest)] =>
      pose proof (guarded_spec server rest w) as Hg
  end.
  unfold backend_unavailable in Hg. rewrite Hg, Hprobe. clear Hg.
  unfold bind at 1. unfold ResumeGeneration.analyzeJobAndProfile.
  rewrite try_rethrow_spec. unfold bind at 1.
  unfold ResumeGeneration.extractSkills. rewrite try_rethrow_spec.
  unfold axios. rewrite length_after, Hextract.
  unfold after. cbn. rewrite <- !app_assoc. reflexivity.
Qed.

Lemma extraction_failure_is_logged_three_times_witness :
  let extractor_down : backend :=
    fun n r => match r with
               | PostExtractSkills _ => inl (AxiosError "timeout of 5000ms exceeded")
               | _ => Scenario.healthy n r
               end in
  console (snd (ResumeGeneration.generateFinalResume Scenario.builtins0 extractor_down
                  "2025-01-01T10:00:00.000Z" "Python developer" (Some Scenario.profile)
                  Scenario.preferences (VStr "modern") empty_world))
  = [ ("Error extracting skills:", AxiosError "timeout of 5000ms exceeded");
      ("Error analyzing job and profile:", AxiosError "timeout of 5000ms exceeded");
      ("Error generating final resume:", AxiosError "timeout of 5000ms exceeded") ].
Proof.
  cbv zeta.
  rewrite (extraction_failure_is_logged_three_times Scenario.builtins0 _
             "2025-01-01T10:00:00.000Z" "Python developer" (Some Scenario.profile)
             Scenario.preferences (VStr "modern") empty_world
             (VObj [("status", VStr "ready")])
             (AxiosError "timeout of 5000ms exceeded") eq_refl eq_refl).
  reflexivity.
Defined.

Lemma slice_firstn {A} (a b n : nat) (l : list A) :
  b <= n -> slice a b (firstn n l) = slice a b l.
Proof.
  intros Hb. unfold slice. apply nth_error_ext. intros i.
  rewrite !nth_error_firstn, !nth_error_skipn, nth_error_firstn.
  destruct (Nat.ltb_spec i (b - a)) as [Hi|_]; [|reflexivity].
  destruct (Nat.ltb_spec (a + i) n) as [_|Hge]; [reflexivity | lia].
Qed.

(** X8 - The analysis looks at the first nine extracted skills only:
    whatever comes after them in the answer of the extractor changes
    neither the keyword lists nor the gaps, nor whether the analysis
    fails. *)
Theorem analysis_reads_nine_skills :
  forall (items : list value) (resumeText : string) (matchScore : value),
    ResumeGeneration.analysis_of (VArr items) resumeText matchScore
    = ResumeGeneration.analysis_of (VArr (firstn 9 items)) resumeText matchScore.
Proof.
  intros items text score.
  unfold ResumeGeneration.analysis_of, ResumeGeneration.slice_absent,
    ResumeGeneration.slice_names.
  rewrite !slice_firstn by lia. reflexivity.
Qed.

Lemma analysis_of_not_array (data : value) (text : string) (score : value) :
  isArray data = false ->
  ResumeGeneration.analysis_of data text score = Throw TypeError.
Proof. destruct data; cbn; intros H; try reflexivity. discriminate H. Qed.

(** X9 - When the extractor answers with anything but an array, for
    instance an object that holds the skills under a key,
    [analyzeJobAndProfile] cannot return: the scoring request is still
    sent, and once it is answered the call throws a [TypeError], logged
    once. *)
Theorem analyzeJobAndProfile_needs_an_array :
  forall (server : backend) (jobDescription : string)
         (candidateProfile : option ResumeGeneration.Profile)
         (w : world) (data : value),
    server (length (sent w)) (PostExtractSkills jobDescription) = inr data ->
    isArray data = false ->
    let text := ResumeGeneration.convertProfileToText candidateProfile in
    let run :=
      ResumeGeneration.analyzeJobAndProfile server jobDescription candidateProfile w in
    (forall analysis, fst run <> Return analysis) /\
    (forall answer : value,
        server (S (length (sent w))) (PostMatchResume text data) = inr answer ->
        answer <> VNull -> answer <> VUndefined ->
        run = (Throw TypeError,
               {| sent := sent w ++ [ PostExtractSkills jobDescription;
                                      PostMatchResume text data ];
                  console := console w
                             ++ [("Error analyzing job and profile:", TypeError)] |})).
Proof.
  intros server jd profile w data Hresp Hna text run. split.
  - intros a Hret. subst run.
    destruct (ResumeGeneration.analyzeJobAndProfile server jd profile w)
      as [o w'] eqn:E. cbn in Hret. subst o.
    destruct (analyzeJobAndProfile_Return server jd profile w w' a E)
      as (data' & score & Hresp' & Ha).
    rewrite Hresp in Hresp'. injection Hresp' as <-.
    rewrite (analysis_of_not_array data _ _ Hna) in Ha. discriminate Ha.
  - intros answer Hmatch Hnn Hnu. subst run text.
    unfold ResumeGeneration.analyzeJobAndProfile. rewrite try_rethrow_spec.
    unfold bind at 1. unfold ResumeGeneration.extractSkills.
    rewrite try_rethrow_spec. unfold axios at 1. rewrite Hresp.
    cbv zeta. unfold bind at 1. unfold ResumeGeneration.calculateMatchScore.
    rewrite try_rethrow_spec. unfold bind at 1. unfold axios.
    cbn [sent]. rewrite length_app. cbn [length]. rewrite Nat.add_1_r, Hmatch.
    assert (Hg : get_prop answer "matchScore" = Return (get answer "matchScore")).
    { destruct answer; try reflexivity; contradiction. }
    unfold lift. rewrite Hg, (analysis_of_not_array data _ _ Hna).
    cbn. rewrite <- !app_assoc. reflexivity.
Qed.

Lemma analyzeJobAndProfile_needs_an_array_witness :
  exists e : error,
    fst (ResumeGeneration.analyzeJobAndProfile
           (Scenario.extracting (VObj [("skills", Scenario.six_skills)]))
           "Python developer" (Some Scenario.profile) empty_world) = Throw e.
Proof.
  destruct (fst (ResumeGeneration.analyzeJobAndProfile
                   (Scenario.extracting (VObj [("skills", Scenario.six_skills)]))
                   "Python developer" (Some Scenario.profile) empty_world))
    as [analysis|e] eqn:E.
  - exfalso.
    exact (proj1 (analyzeJobAndProfile_needs_an_array
                    (Scenario.extracting (VObj [("skills", Scenario.six_skills)]))
                    "Python developer" (Some Scenario.profile) empty_world
                    (VObj [("skills", Scenario.six_skills)]) eq_refl eq_refl)
                 analysis E).
  - exists e. reflexivity.
Defined.

Lemma content_of_needs_education (B : builtins) (draft : value)
    (preferences : ResumeGeneration.Preferences) :
  get draft "education" = VUndefined \/ get draft "education" = VNull ->
  ResumeGeneration.content_of B draft preferences = Throw TypeError.
Proof.
  intros H. unfold ResumeGeneration.content_of.
  destruct draft as [| |b|n|s|items|props]; try reflexivity;
    cbn [get_prop obind]; destruct H as [-> | ->]; reflexivity.
Qed.

(** X10 - [generateResumeContent] requires the generated draft to carry
    an [education]: when the draft has none (or [null]) the call throws a
    [TypeError] after both of its requests were answered, and logs it
    once; the final assembly of [generateFinalResume], in contrast,
    accepts a draft without education. *)
Theorem generateResumeContent_needs_education :
  forall (B : builtins) (server : backend) (jobDescription : string)
         (candidateProfile : option ResumeGeneration.Profile)
         (preferences : ResumeGeneration.Preferences)
         (w : world) (skills draft : value),
    let text := ResumeGeneration.convertProfileToText candidateProfile in
    server (length (sent w)) (PostExtractSkills jobDescription) = inr skills ->
    server (S (length (sent w))) (PostGenerateResume text jobDescription skills)
      = inr draft ->
    get draft "education" = VUndefined \/ get draft "education" = VNull ->
    ResumeGeneration.generateResumeContent B server jobDescription candidateProfile
      preferences w
    = (Throw TypeError,
       {| sent := sent w ++ [ PostExtractSkills jobDescription;
                              PostGenerateResume text jobDescription skills ];
          console := console w ++ [("Error generating resume content:", TypeError)] |})
    /\
    (draft <> VNull -> draft <> VUndefined ->
     forall p info,
       ResumeGeneration.personalInfo p = Some info ->
       exists resume,
         ResumeGeneration.final_generatedResume (Some p) draft = Return resume /\
         get resume "education" = VArr []).
Proof.
  intros B server jd profile prefs w skills draft text Hextract Hgen Hedu. split.
  - subst text.
    unfold ResumeGeneration.generateResumeContent. rewrite try_rethrow_spec.
    unfold bind at 1. unfold ResumeGeneration.extractSkills.
    rewrite try_rethrow_spec. unfold axios at 1. rewrite Hextract.
    cbv zeta. unfold bind at 1. unfold ResumeGeneration.generatePersonalizedResume.
    rewrite try_rethrow_spec. unfold axios.
    cbn [sent]. rewrite length_app. cbn [length]. rewrite Nat.add_1_r, Hgen.
    unfold lift. rewrite (content_of_needs_education B draft prefs Hedu).
    cbn. rewrite <- !app_assoc. reflexivity.
  - intros Hnn Hnu p info Hinfo.
    unfold ResumeGeneration.final_generatedResume. rewrite Hinfo.
    assert (Hg : get_prop draft "summary" = Return (get draft "summary")).
    { destruct draft; try reflexivity; contradiction. }
    rewrite Hg. cbn [obind]. eexists. split; [reflexivity|].
    cbn. destruct Hedu as [-> | ->]; reflexivity.
Qed.

Lemma generateResumeContent_needs_education_witness :
  fst (ResumeGeneration.generateResumeContent Scenario.builtins0
         (fun n r => match r with
                     | PostGenerateResume _ _ _ => inr (VObj [("summary", VStr "Engineer")])
                     | _ => Scenario.healthy n r
                     end)
         "Python developer" (Some Scenario.profile) Scenario.preferences empty_world)
  = Throw TypeError.
Proof.
  rewrite (proj1 (generateResumeContent_needs_education Scenario.builtins0
                    (fun n r => match r with
                                | PostGenerateResume _ _ _ =>
                                    inr (VObj [("summary", VStr "Engineer")])
                                | _ => Scenario.healthy n r
                                end)
                    "Python developer" (Some Scenario.profile) Scenario.preferences
                    empty_world Scenario.six_skills (VObj [("summary", VStr "Engineer")])
                    eq_refl eq_refl (or_introl eq_refl))).
  reflexivity.
Defined.

(* ------------------------------------------------------------------ *)
(** *** More on [extractSkills] of [resumeApiService.js]                *)
(* ------------------------------------------------------------------ *)

Lemma normalizeSkill_throws (B : builtins) (skill : value) (e : error) :
  ResumeApi.normalizeSkill B skill = Throw e -> skill = VNull /\ e = TypeError.
Proof.
  destruct skill as [| |b|n|s|items|props]; cbn; intros H; try discriminate H.
  - injection H as <-. split; reflexivity.
  - destruct (truthy _); [discriminate H|]. destruct (truthy _); discriminate H.
Qed.

Lemma omap_normalizeSkill_null (B : builtins) (items : list value) :
  In VNull items <-> omap (ResumeApi.normalizeSkill B) items = Throw TypeError.
Proof.
  induction items as [|x l IH]; cbn [omap In].
  - split; [intros [] | discriminate].
  - destruct (ResumeApi.normalizeSkill B x) as [y|e] eqn:Ex; cbn [obind].
    + assert (Hx : x <> VNull) by (intros ->; discriminate Ex).
      destruct (omap (ResumeApi.normalizeSkill B) l) as [ys|e] eqn:El; cbn [obind].
      * split; [|discriminate]. intros [H|H]; [congruence|].
        apply IH in H. discriminate H.
      * split.
        -- intros [H|H]; [congruence | apply IH; exact H].
        -- intros H. right. apply IH. exact H.
    + apply normalizeSkill_throws in Ex. destruct Ex as [-> ->].
      split; [reflexivity | intros _; left; reflexivity].
Qed.

Lemma omap_normalizeSkill_Throw (B : builtins) (items : list value) (e : error) :
  omap (ResumeApi.normalizeSkill B) items = Throw e -> In VNull items /\ e = TypeError.
Proof.
  induction items as [|x l IH]; cbn [omap]; intros H; [discriminate H|].
  destruct (ResumeApi.normalizeSkill B x) as [y|e0] eqn:Ex; cbn [obind] in H.
  - destruct (omap (ResumeApi.normalizeSkill B) l) as [ys|e1]; cbn [obind] in H;
      [discriminate H|].
    injection H as ->. destruct (IH eq_refl) as [Hin ->].
    split; [right; exact Hin | reflexivity].
  - injection H as ->. apply normalizeSkill_throws in Ex. destruct Ex as [-> ->].
    split; [left; reflexivity | reflexivity].
Qed.

(** X11 - One [null] among the skills answered by the extractor makes
    [extractSkills] fail as a whole: it throws a [TypeError], logged once,
    and none of the other skills is returned. A [null] element is the only
    thing in an array answer that makes it throw. *)
Theorem extractSkills_fails_on_null :
  forall (B : builtins) (server : backend) (jobDescription : string)
         (w : world) (items : list value),
    server (length (sent w)) (PostExtractSkills jobDescription) = inr (VArr items) ->
    (In VNull items ->
     ResumeApi.extractSkills B server jobDescription w
     = (Throw TypeError,
        {| sent := sent w ++ [PostExtractSkills jobDescription];
           console := console w ++ [("Error extracting skills:", TypeError)] |})) /\
    (forall e, fst (ResumeApi.extractSkills B server jobDescription w) = Throw e ->
               In VNull items /\ e = TypeError).
Proof.
  intros B server jd w items Hresp.
  rewrite (extractSkills_on_array B server jd w items Hresp). split.
  - intros Hnull. apply (omap_normalizeSkill_null B) in Hnull. rewrite Hnull. reflexivity.
  - intros e He.
    destruct (omap (ResumeApi.normalizeSkill B) items) as [out|e'] eqn:Eo;
      cbn in He; [discriminate He|].
    injection He as ->. exact (omap_normalizeSkill_Throw B items e Eo).
Qed.

Lemma extractSkills_fails_on_null_witness :
  fst (ResumeApi.extractSkills Scenario.builtins0
         (Scenario.extracting (VArr [VStr "React"; VNull; VStr "Python"]))
         "Need React and Python" empty_world)
  = Throw TypeError.
Proof.
  rewrite (proj1 (extractSkills_fails_on_null Scenario.builtins0
                    (Scenario.extracting (VArr [VStr "React"; VNull; VStr "Python"]))
                    "Need React and Python" empty_world
                    [VStr "React"; VNull; VStr "Python"] eq_refl)).
  - reflexivity.
  - right. left. reflexivity.
Defined.

Lemma lookup_spread_other (k : string) (src init : list (string * value)) :
  ~ In k (map fst src) -> lookup k (spread init src) = lookup k init.
Proof.
  unfold spread. revert init.
  induction src as [|[k0 v0] src IH]; intros init Hk; cbn; [reflexivity|].
  rewrite IH by (intros H; apply Hk; right; exact H).
  rewrite lookup_set_prop.
  destruct (String.eqb_spec k k0) as [->|_]; [|reflexivity].
  contradiction Hk. left. reflexivity.
Qed.

Lemma lookup_spread_src (k : string) (v : value) (src init : list (string * value)) :
  NoDup (map fst src) -> In (k, v) src -> lookup k (spread init src) = Some v.
Proof.
  revert init. induction src as [|[k0 v0] src IH]; intros init Hnd Hin; [destruct Hin|].
  cbn in Hnd. inversion Hnd as [|? ? Hnotin Hnd']; subst.
  destruct Hin as [E|Hin].
  - injection E as -> ->.
    change (spread init ((k, v) :: src)) with (spread (set_prop k v init) src).
    rewrite lookup_spread_other by exact Hnotin.
    rewrite lookup_set_prop, String.eqb_refl. reflexivity.
  - change (spread init ((k0, v0) :: src)) with (spread (set_prop k0 v0 init) src).
    apply IH; assumption.
Qed.

Lemma lookup_None_keys (k : string) (props : list (string * value)) :
  lookup k props = None -> ~ In k (map fst props).
Proof.
  induction props as [|[k0 v0] props IH]; cbn [lookup map In fst]; intros H Hin;
    [exact Hin|].
  destruct (String.eqb_spec k k0) as [->|Hne]; [discriminate H|].
  destruct Hin as [E|Hin]; [congruence | exact (IH H Hin)].
Qed.

(** X12 - When an answered skill is an object with a truthy [skill]
    property, the entry built by [extractSkills] keeps every property of
    that object with its value (category, relevance, the [skill] itself,
    and a [name] of its own when it has one), takes its [name] from
    [skill] when the object has no [name], and has no other property. *)
Theorem normalizeSkill_keeps_properties :
  forall (B : builtins) (props : list (string * value)),
    NoDup (map fst props) ->
    truthy (get (VObj props) "skill") = true ->
    exists out : list (string * value),
      ResumeApi.normalizeSkill B (VObj props) = Return (VObj out) /\
      (forall k v, In (k, v) props -> lookup k out = Some v) /\
      (lookup "name" props = None ->
       lookup "name" out = Some (get (VObj props) "skill")) /\
      (forall k v, lookup k out = Some v -> k = "name" \/ In (k, v) props).
Proof.
  intros B props Hnd Hskill.
  exists (spread [("name", get (VObj props) "skill")] props). split.
  - unfold ResumeApi.normalizeSkill. rewrite Hskill. reflexivity.
  - split; [|split].
    + intros k v Hin. apply lookup_spread_src; assumption.
    + intros Hnone. rewrite lookup_spread_other.
      * reflexivity.
      * apply lookup_None_keys. exact Hnone.
    + intros k v Hl.
      destruct (proj1 (lookup_spread k props [("name", get (VObj props) "skill")]) v Hl)
        as [Hi|Hi]; [|right; exact Hi].
      left. cbn in Hi. destruct (String.eqb_spec k "name"); [assumption | discriminate Hi].
Qed.

Lemma normalizeSkill_keeps_properties_witness :
  exists out : list (string * value),
    ResumeApi.normalizeSkill Scenario.builtins0
      (VObj [ ("skill", VStr "Python"); ("category", VStr "language");
              ("relevance", VNum 0.9%float) ]) = Return (VObj out) /\
    lookup "category" out = Some (VStr "language") /\
    lookup "name" out = Some (VStr "Python").
Proof.
  destruct (normalizeSkill_keeps_properties Scenario.builtins0
              [ ("skill", VStr "Python"); ("category", VStr "language");
                ("relevance", VNum 0.9%float) ])
    as (out & Hout & Hkeep & Hname & _).
  - repeat constructor; cbn; intuition discriminate.
  - reflexivity.
  - exists out. split; [exact Hout|]. split.
    + apply Hkeep. right. left. reflexivity.
    + apply Hname. reflexivity.
Defined.

(* ------------------------------------------------------------------ *)
(** *** Keywords of a job description                                   *)
(* ------------------------------------------------------------------ *)

Lemma lower_ascii_idempotent (c : ascii) : lower_ascii (lower_ascii c) = lower_ascii c.
Proof.
  destruct c as [b0 b1 b2 b3 b4 b5 b6 b7].
  destruct b0, b1, b2, b3, b4, b5, b6, b7; reflexivity.
Qed.

Lemma toLowerCase_idempotent (s : string) : toLowerCase (toLowerCase s) = toLowerCase s.
Proof.
  induction s as [|c s IH]; cbn; [reflexivity|].
  rewrite lower_ascii_idempotent, IH. reflexivity.
Qed.

(** Containment is kept when the part looked for is shortened. *)
Lemma includes_shorter (s sub rest : string) :
  includes s (sub ++ rest) = true -> includes s sub = true.
Proof.
  intros H. apply includes_split in H. destruct H as (a & b & ->).
  rewrite append_assoc. apply includes_app.
Qed.

(** X13 - [extractKeywords] does not depend on the case of the job
    description, and it matches substrings, not words: a description in
    which it finds "javascript" is always reported to ask for "java" as
    well. *)
Theorem extractKeywords_matches_substrings :
  forall jobDescription : string,
    KeywordService.extractKeywords (toLowerCase jobDescription)
      = KeywordService.extractKeywords jobDescription /\
    (In "javascript"
        (KeywordService.category "skills" (KeywordService.extractKeywords jobDescription)) ->
     In "java"
        (KeywordService.category "skills" (KeywordService.extractKeywords jobDescription))).
Proof.
  intros jd. split.
  - unfold KeywordService.extractKeywords. rewrite toLowerCase_idempotent. reflexivity.
  - unfold KeywordService.extractKeywords.
    cbn [map KeywordService.commonKeywords KeywordService.category fst snd].
    rewrite String.eqb_refl. rewrite !filter_In. intros [_ H]. split.
    + cbn. tauto.
    + change (toLowerCase "javascript") with ("java" ++ "script")%string in H.
      change (toLowerCase "java") with "java".
      exact (includes_shorter _ _ _ H).
Qed.

(* ------------------------------------------------------------------ *)
(** *** The resume hook and its client                                  *)
(* ------------------------------------------------------------------ *)

Import ObsHook.

Lemma client_extractSkills_spec (server : backend) (jd : string) (w : world) :
  ResumeClient.extractSkills server jd w =
  match server (length (sent w)) (PostExtractSkills jd) with
  | inl err =>
      (Throw extraction_failed,
       {| sent := sent w ++ [PostExtractSkills jd];
          console := console w ++ [("Error extracting skills:", err)] |})
  | inr data =>
      match get_prop data "skills" with
      | Throw err =>
          (Throw extraction_failed,
           {| sent := sent w ++ [PostExtractSkills jd];
              console := console w ++ [("Error extracting skills:", err)] |})
      | Return skills =>
          (Return (VObj [ ("skills", or_else skills (VArr []));
                          ("experience", or_else (get data "experience") (VNum 0%float));
                          ("education", or_else (get data "education") (VArr [])) ]),
           after w (PostExtractSkills jd))
      end
  end.
Proof.
  unfold ResumeClient.extractSkills, try_catch, bind, axios, lift, ret, throw,
    console_error, after.
  destruct (server (length (sent w)) (PostExtractSkills jd)) as [e|data];
    [reflexivity|].
  destruct (get_prop data "skills"); reflexivity.
Qed.

Lemma client_matchResume_spec (server : backend) (resume : string) (skills : value)
    (w : world) :
  ResumeClient.matchResume server resume skills w =
  match server (length (sent w)) (PostMatchResume resume skills) with
  | inl err =>
      (Throw (Error "Failed to match resume with job skills"),
       {| sent := sent w ++ [PostMatchResume resume skills];
          console := console w ++ [("Error matching resume:", err)] |})
  | inr data => (Return data, after w (PostMatchResume resume skills))
  end.
Proof.
  unfold ResumeClient.matchResume, try_catch, bind, axios, throw, console_error, after.
  destruct (server (length (sent w)) (PostMatchResume resume skills)); reflexivity.
Qed.

Lemma client_generateResume_spec (server : backend) (resume jd : string)
    (skills : value) (w : world) :
  ResumeClient.generateResume server resume jd skills w =
  match server (length (sent w)) (PostGenerateResume resume jd skills) with
  | inl err =>
      (Throw (Error "Failed to generate personalized resume"),
       {| sent := sent w ++ [PostGenerateResume resume jd skills];
          console := console w ++ [("Error generating resume:", err)] |})
  | inr data => (Return data, after w (PostGenerateResume resume jd skills))
  end.
Proof.
  unfold ResumeClient.generateResume, try_catch, bind, axios, throw, console_error,
    after.
  destruct (server (length (sent w)) (PostGenerateResume resume jd skills));
    reflexivity.
Qed.











Lemma accept_resume_fields (B : builtins) (pretty : value -> string)
    (matchResult resumeData : value) (st : ResumeHook.state) :
  let st' := ResumeHook.accept_resume B pretty matchResult resumeData st in
  same_inputs st st' /\
  ResumeHook.error st' = ResumeHook.error st /\
  ResumeHook.loading st' = ResumeHook.loading st.
Proof.
  unfold ResumeHook.accept_resume, same_inputs.
  destruct (truthy resumeData && String.eqb (typeof resumeData) "object")%bool;
    [destruct (truthy (get resumeData "personalized_resume"));
     [destruct (ResumeHook.has_match_score resumeData)|]|];
    cbn; repeat split.
Qed.

(** The [try] block of [handleAnalyze] sends between one and three
    requests, writes no field of the state but the skills, the resume and
    the score, and logs nothing when it ends without exception. *)
Lemma analyze_steps_trace (B : builtins) (pretty : value -> string)
    (server : backend) (st : ResumeHook.state) (w : world) :
  exists (new : list request) (lines : list (string * error)),
    let '(st', ended, w') := ResumeHook.analyze_steps B pretty server st w in
    sent w' = sent w ++ new /\
    console w' = console w ++ lines /\
    1 <= length new <= 3 /\
    same_inputs st st' /\
    ResumeHook.error st' = ResumeHook.error st /\
    ResumeHook.loading st' = ResumeHook.loading st /\
    (ended = None -> lines = []).
Proof.
  unfold ResumeHook.analyze_steps.
  rewrite client_extractSkills_spec.
  destruct (server (length (sent w)) (PostExtractSkills (ResumeHook.jobDescription st)))
    as [e|data].
  { exists [PostExtractSkills (ResumeHook.jobDescription st)], [("Error extracting skills:", e)].
    unfold same_inputs. cbn. repeat split; try lia. discriminate. }
  destruct (get_prop data "skills") as [skills|e].
  2: { exists [PostExtractSkills (ResumeHook.jobDescription st)],
              [("Error extracting skills:", e)].
       unfold same_inputs. cbn. repeat split; try lia. discriminate. }
  cbv zeta.
  match goal with |- context [ResumeHook.length_is_zero ?v] =>
    set (skillsArray := v); destruct (ResumeHook.length_is_zero skillsArray) end.
  { exists [PostExtractSkills (ResumeHook.jobDescription st)], [].
    unfold same_inputs. cbn. rewrite app_nil_r. repeat split; try lia. }
  rewrite client_matchResume_spec.
  match goal with |- context [server ?n (PostMatchResume ?a ?b)] =>
    destruct (server n (PostMatchResume a b)) as [e|matchResult] end.
  { exists [PostExtractSkills (ResumeHook.jobDescription st);
            PostMatchResume (ResumeHook.resume st) skillsArray],
           [("Error matching resume:", e)].
    unfold same_inputs. cbn. rewrite <- app_assoc.
    repeat split; try lia. discriminate. }
  destruct (get_prop matchResult "match_score") as [score|e].
  2: { exists [PostExtractSkills (ResumeHook.jobDescription st);
               PostMatchResume (ResumeHook.resume st) skillsArray], [].
       unfold same_inputs. cbn. rewrite <- app_assoc, app_nil_r.
       repeat split; try lia. }
  rewrite client_generateResume_spec.
  match goal with |- context [server ?n (PostGenerateResume ?a ?b ?c)] =>
    destruct (server n (PostGenerateResume a b c)) as [e|resumeData] end.
  { exists [PostExtractSkills (ResumeHook.jobDescription st);
            PostMatchResume (ResumeHook.resume st) skillsArray;
            PostGenerateResume (ResumeHook.resume st) (ResumeHook.jobDescription st)
              skillsArray],
           [("Error generating resume:", e)].
    unfold same_inputs. cbn. rewrite <- !app_assoc.
    repeat split; try lia. discriminate. }
  exists [PostExtractSkills (ResumeHook.jobDescription st);
          PostMatchResume (ResumeHook.resume st) skillsArray;
          PostGenerateResume (ResumeHook.resume st) (ResumeHook.jobDescription st)
            skillsArray], [].
  match goal with |- context [ResumeHook.accept_resume B pretty ?m ?r ?s] =>
    destruct (accept_resume_fields B pretty m r s) as ((H1 & H2 & H3) & H4 & H5) end.
  unfold same_inputs. cbn. rewrite <- !app_assoc, app_nil_r.
  rewrite H1, H2, H3, H4, H5. cbn. repeat split; lia.
Qed.

Lemma app_grows {A} (l m : list A) : m <> [] -> l ++ m <> l.
Proof.
  intros Hm H. apply (f_equal (@length A)) in H. rewrite length_app in H.
  destruct m; [contradiction Hm; reflexivity | cbn in H; lia].
Qed.

(** X18 - [handleAnalyze] never throws and always settles: it sends at
    most three requests, never changes the job description, the resume or
    the backend status, and as soon as it has sent a request it leaves
    the loading flag off. After such a run the error message is empty
    exactly when nothing was written to the console. *)
Theorem handleAnalyze_always_settles :
  forall (B : builtins) (pretty : value -> string) (type_error_message : string)
         (server : backend) (st : ResumeHook.state) (w : world),
    exists (st' : ResumeHook.state) (w' : world) (new : list request),
      ResumeHook.handleAnalyze B pretty type_error_message server st w
        = (Return st', w') /\
      sent w' = sent w ++ new /\
      length new <= 3 /\
      same_inputs st st' /\
      (new = [] -> ResumeHook.loading st' = ResumeHook.loading st /\ w' = w) /\
      (new <> [] ->
       ResumeHook.loading st' = false /\
       (ResumeHook.error st' = "" <-> console w' = console w)).
Proof.
  intros B pretty tm server st w.
  unfold ResumeHook.handleAnalyze.
  assert (Hguard : forall msg,
             exists (st' : ResumeHook.state) (w' : world) (new : list request),
               (Return (ResumeHook.setError msg st), w) = (Return st', w') /\
               sent w' = sent w ++ new /\ length new <= 3 /\ same_inputs st st' /\
               (new = [] -> ResumeHook.loading st' = ResumeHook.loading st /\ w' = w) /\
               (new <> [] ->
                ResumeHook.loading st' = false /\
                (ResumeHook.error st' = "" <-> console w' = console w))).
  { intros msg. exists (ResumeHook.setError msg st), w, [].
    unfold same_inputs. cbn. rewrite app_nil_r.
    repeat split; try reflexivity; try lia; intros; congruence. }
  assert (Hrun :
            exists (st' : ResumeHook.state) (w' : world) (new : list request),
              match ResumeHook.analyze_steps B pretty server
                      (ResumeHook.setLoading true (ResumeHook.setError "" st)) w with
              | (st1, None, w1) => (Return (ResumeHook.setLoading false st1), w1)
              | (st1, Some err, w1) =>
                  (Return
                     (ResumeHook.setLoading false
                        (ResumeHook.setError
                           ("An error occurred: "
                            ++ (if String.eqb (ResumeHook.message_of tm err) ""
                                then "Please make sure the Python backend is running and models are trained."
                                else ResumeHook.message_of tm err))%string
                           st1)),
                   {| sent := sent w1;
                      console := console w1
                                 ++ [("Error during resume generation:", err)] |})
              end = (Return st', w') /\
              sent w' = sent w ++ new /\ length new <= 3 /\ same_inputs st st' /\
              (new = [] -> ResumeHook.loading st' = ResumeHook.loading st /\ w' = w) /\
              (new <> [] ->
               ResumeHook.loading st' = false /\
               (ResumeHook.error st' = "" <-> console w' = console w))).
  { destruct (analyze_steps_trace B pretty server
                (ResumeHook.setLoading true (ResumeHook.setError "" st)) w)
      as (new & lines & H).
    destruct (ResumeHook.analyze_steps B pretty server
                (ResumeHook.setLoading true (ResumeHook.setError "" st)) w)
      as [[st1 ended] w1].
    destruct H as (Hsent & Hcons & Hlen & (Hj & Hr & Hb) & He & Hl & Hnone).
    cbn in Hj, Hr, Hb, He.
    assert (Hnew : new <> []) by (intros ->; cbn in Hlen; lia).
    destruct ended as [err|].
    - eexists. eexists. exists new. split; [reflexivity|]. cbn [sent console].
      split; [exact Hsent|]. split; [lia|].
      split; [unfold same_inputs; cbn; auto|].
      split; [intros ->; contradiction Hnew; reflexivity|].
      intros _. split; [reflexivity|]. split.
      + cbn. discriminate.
      + intros H. exfalso. rewrite Hcons, <- app_assoc in H.
        revert H. apply app_grows. destruct lines; discriminate.
    - eexists. eexists. exists new. split; [reflexivity|].
      split; [exact Hsent|]. split; [lia|].
      split; [unfold same_inputs; cbn; auto|].
      split; [intros ->; contradiction Hnew; reflexivity|].
      intros _. split; [reflexivity|]. split.
      + intros _. rewrite Hcons, (Hnone eq_refl), app_nil_r. reflexivity.
      + intros _. cbn. exact He. }
  destruct (ResumeHook.backendStatus st); [| |apply Hguard];
    (destruct (ResumeHook.blank (ResumeHook.jobDescription st)); [apply Hguard|];
     destruct (ResumeHook.blank (ResumeHook.resume st)); [apply Hguard|];
     exact Hrun).
Qed.

Lemma handleAnalyze_always_settles_witness :
  exists st' : ResumeHook.state,
    fst (ResumeHook.handleAnalyze Scenario.builtins0 (fun _ => "{}") ""
           hook_backend filled empty_world) = Return st' /\
    ResumeHook.loading st' = false.
Proof.
  destruct (handleAnalyze_always_settles Scenario.builtins0 (fun _ => "{}") ""
              hook_backend filled empty_world)
    as (st' & w' & new & Hrun & Hsent & _ & _ & _ & Hbusy).
  exists st'. split; [rewrite Hrun; reflexivity|].
  apply Hbusy. intros ->.
  assert (E : sent w' = sent (snd (ResumeHook.handleAnalyze Scenario.builtins0
                                     (fun _ => "{}") "" hook_backend filled empty_world)))
    by (rewrite Hrun; reflexivity).
  rewrite Hsent in E. vm_compute in E. discriminate E.
Defined.

Lemma client_probe_spec (server : backend) (w : world) :
  ResumeClient.checkBackendStatus server w =
  match server (length (sent w)) GetModelStatus with
  | inr _ => (Return true, after w GetModelStatus)
  | inl err =>
      (Return false,
       {| sent := sent w ++ [GetModelStatus];
          console := console w ++ [("Backend connection error:", err)] |})
  end.
Proof.
  unfold ResumeClient.checkBackendStatus, try_catch, bind, axios, console_error,
    ret, after.
  destruct (server (length (sent w)) GetModelStatus); reflexivity.
Qed.

(** X19 - The hook probes the backend once, on mount, and keeps the
    answer: after the probe the status is connected when it succeeded and
    disconnected, with the "Cannot connect" message, when it failed. Once
    marked disconnected the hook never sends a request from
    [handleAnalyze], whatever the backend answers by then. *)
Theorem probe_on_mount_decides :
  forall (B : builtins) (pretty : value -> string) (type_error_message : string)
         (server : backend) (st : ResumeHook.state) (w : world),
    exists (st1 : ResumeHook.state) (w1 : world),
      ResumeHook.checkStatus server st w = (Return st1, w1) /\
      sent w1 = sent w ++ [GetModelStatus] /\
      match server (length (sent w)) GetModelStatus with
      | inr _ =>
          ResumeHook.backendStatus st1 = ResumeHook.connected /\
          ResumeHook.error st1 = ResumeHook.error st
      | inl _ =>
          ResumeHook.backendStatus st1 = ResumeHook.disconnected /\
          ResumeHook.error st1 = ResumeHook.cannot_connect /\
          forall (later : backend) (w2 : world),
            ResumeHook.handleAnalyze B pretty type_error_message later st1 w2
            = (Return st1, w2)
      end.
Proof.
  intros B pretty tm server st w.
  unfold ResumeHook.checkStatus. rewrite client_probe_spec.
  destruct (server (length (sent w)) GetModelStatus) as [e|ok].
  - eexists. eexists. split; [reflexivity|]. split; [reflexivity|].
    split; [reflexivity|]. split; [reflexivity|].
    intros later w2. reflexivity.
  - eexists. eexists. split; [reflexivity|]. split; [reflexivity|].
    split; reflexivity.
Qed.

(** X20 - The ranking component never shows a ranking: it iterates over
    the object returned by [rankCandidates], which is not iterable, so
    whatever the candidates and the success predictor (which is never
    called) it ends with the message "Failed to rank candidates. Please
    try again.", the loading flag off and the rankings it had before. *)
Theorem analyzeCandidates_never_ranks :
  forall (predict1 predict2 : value -> string -> value -> outcome value)
         (now jobDescription : string) (candidates : list value)
         (historicalData : value) (st : MockAi.ranking_state),
    let after_run :=
      MockAi.analyzeCandidates predict1 now jobDescription candidates historicalData st in
    after_run
      = MockAi.analyzeCandidates predict2 now jobDescription candidates historicalData st /\
    MockAi.rankings after_run = MockAi.rankings st /\
    MockAi.loading after_run = false /\
    MockAi.error_message after_run
      = Some "Failed to rank candidates. Please try again.".
Proof. intros. repeat split. Qed.

Lemma extractKeywords_matches_substrings_witness :
  In "java"
     (KeywordService.category "skills"
        (KeywordService.extractKeywords "Senior JavaScript developer")).
Proof.
  apply (extractKeywords_matches_substrings "Senior JavaScript developer").
  vm_compute. left. reflexivity.
Defined.
